(** * GRM_for_linear_LC.py: the rectangular-pulse example, embedded in Rocq

    The script configures a CADET-Process model (component system, linear
    binding model, general rate model column, inlet, outlet, flow sheet,
    process with two events), optionally simulates it, computes the Peclet
    number of the column and sweeps six Peclet numbers, re-simulating and
    plotting for each.

    The embedding is shallow: the module body becomes one function in a
    state-and-exception monad over a heap of library objects (so that the
    [column] shared between the script and the flow sheet is one object)
    and a log of the externally observable effects.  Python's [float]
    arithmetic is an interface with two instances: binary64 (what CPython
    runs) and exact rationals (the idealisation the specification refers
    to). *)

From Stdlib Require Import ZArith QArith Qabs PrimFloat Uint63 String DecimalString.
From Stdlib Require Import SpecFloat FloatOps.
From stdpp Require Import base option list.

Set Warnings "-inexact-float".

Local Open Scope string_scope.
Local Open Scope Z_scope.

(** ** Python floats *)

(** The operations the script applies to floats.  [lit m e] is the decimal
    literal [m]e[e] (so [0.017] is [lit 17 (-3)]), [of_int] is the implicit
    conversion of an [int] operand in mixed arithmetic, [fis_zero] is the
    test [float.__truediv__] makes on its divisor. *)
Class PyFloat (F : Type) := {
  lit : Z -> Z -> F;
  of_int : Z -> F;
  fmul : F -> F -> F;
  fdiv : F -> F -> F;
  fis_zero : F -> bool;
  feqb : F -> F -> bool;
  fltb : F -> F -> bool;
  fleb : F -> F -> bool
}.

(** Exact rationals, kept in lowest terms so that equal values are equal
    terms. *)
Module Exact.

Definition lit (m e : Z) : Q :=
  Qred (if e <? 0 then Qmake m (Z.to_pos (10 ^ (- e)))
        else inject_Z (m * 10 ^ e)).

Definition mul (x y : Q) : Q := Qred (x * y).
Definition div (x y : Q) : Q := Qred (x / y).
Definition is_zero (x : Q) : bool := Qeq_bool x 0.
Definition ltb (x y : Q) : bool := negb (Qle_bool y x).

#[global] Instance arith : PyFloat Q := {
  lit := lit;
  of_int := inject_Z;
  fmul := mul;
  fdiv := div;
  fis_zero := is_zero;
  feqb := Qeq_bool;
  fltb := ltb;
  fleb := Qle_bool
}.

End Exact.

(** IEEE 754 binary64 with round-to-nearest-even, CPython's [float].  A
    literal [m]e[e] with [|m| < 2^53] and [|e| <= 22] is the correctly
    rounded quotient (or product) of two exactly representable numbers;
    every literal of the script is of that kind.

    [of_int z] is CPython's conversion of the [int] [z] for [|z| < 2^53],
    where the conversion is exact; every [int] the script converts is in
    that range.  Beyond it CPython rounds up to 2^1024 and raises
    OverflowError from there on, while this definition goes through a
    63-bit integer: the binary64 statements below are about integers
    inside the range only. *)
Module Binary64.

Definition of_int (z : Z) : float :=
  if z <? 0 then PrimFloat.opp (PrimFloat.of_uint63 (Uint63.of_Z (- z)))
  else PrimFloat.of_uint63 (Uint63.of_Z z).

Definition lit (m e : Z) : float :=
  if e <? 0 then PrimFloat.div (of_int m) (of_int (10 ^ (- e)))
  else of_int (m * 10 ^ e).

Definition is_zero (x : float) : bool := PrimFloat.eqb x 0%float.

#[global] Instance arith : PyFloat float := {
  lit := lit;
  of_int := of_int;
  fmul := PrimFloat.mul;
  fdiv := PrimFloat.div;
  fis_zero := is_zero;
  feqb := PrimFloat.eqb;
  fltb := PrimFloat.ltb;
  fleb := PrimFloat.leb
}.

End Binary64.

(** ** Exceptions and heap locations *)

Inductive exn :=
| ZeroDivisionError
| IndexError
| TypeError
| ValueError
| SimulationError.

Definition loc := nat.

(** ** The objects of the process-modelling library

    One record per class the script instantiates, with the attributes the
    script assigns.  An attribute the script has not assigned yet is
    [None].  Objects refer to each other by heap location. *)

Module ComponentSystem.

Record t := mk { components : list string }.

(** [ComponentSystem()] *)
Definition new : t := mk [].

(** [component_system.add_component(name)] *)
Definition add_component (name : string) (s : t) : t :=
  mk (components s ++ [name]).

(** Modelled from the spec: the library property [n_comp], absent from the
    sources; section 3 calls it the species count of the component
    system. *)
Definition n_comp (s : t) : nat := List.length (components s).

End ComponentSystem.

Module Linear.

Record t (F : Type) := mk {
  component_system : loc;
  name : string;
  is_kinetic : option bool;
  adsorption_rate : option (list F);
  desorption_rate : option (list F)
}.
Arguments mk {F}.
Arguments component_system {F}.
Arguments name {F}.
Arguments is_kinetic {F}.
Arguments adsorption_rate {F}.
Arguments desorption_rate {F}.

(** [Linear(component_system, name=...)] *)
Definition new {F} (cs : loc) (nm : string) : t F :=
  mk cs nm None None None.

Definition set_is_kinetic {F} (v : bool) (b : t F) : t F :=
  mk (component_system b) (name b) (Some v)
     (adsorption_rate b) (desorption_rate b).

Definition set_adsorption_rate {F} (v : list F) (b : t F) : t F :=
  mk (component_system b) (name b) (is_kinetic b)
     (Some v) (desorption_rate b).

Definition set_desorption_rate {F} (v : list F) (b : t F) : t F :=
  mk (component_system b) (name b) (is_kinetic b)
     (adsorption_rate b) (Some v).

End Linear.

Module GeneralRateModel.

Record t (F : Type) := mk {
  component_system : loc;
  name : string;
  binding_model : option loc;
  length : option F;
  cross_section_area : option F;
  bed_porosity : option F;
  particle_radius : option F;
  particle_porosity : option F;
  axial_dispersion : option (list F);
  film_diffusion : option (list F);
  pore_diffusion : option (list F);
  surface_diffusion : option (list F);
  c : option (list F);
  q : option (list F)
}.
Arguments mk {F}.
Arguments component_system {F}.
Arguments name {F}.
Arguments binding_model {F}.
Arguments length {F}.
Arguments cross_section_area {F}.
Arguments bed_porosity {F}.
Arguments particle_radius {F}.
Arguments particle_porosity {F}.
Arguments axial_dispersion {F}.
Arguments film_diffusion {F}.
Arguments pore_diffusion {F}.
Arguments surface_diffusion {F}.
Arguments c {F}.
Arguments q {F}.

(** [GeneralRateModel(component_system, name=...)] *)
Definition new {F} (cs : loc) (nm : string) : t F :=
  mk cs nm None None None None None None None None None None None None.

Section Setters.
Context {F : Type}.
Implicit Type u : t F.

Definition set_binding_model (v : loc) u : t F :=
  mk (component_system u) (name u) (Some v) (length u)
     (cross_section_area u) (bed_porosity u) (particle_radius u)
     (particle_porosity u) (axial_dispersion u) (film_diffusion u)
     (pore_diffusion u) (surface_diffusion u) (c u) (q u).

Definition set_length (v : F) u : t F :=
  mk (component_system u) (name u) (binding_model u) (Some v)
     (cross_section_area u) (bed_porosity u) (particle_radius u)
     (particle_porosity u) (axial_dispersion u) (film_diffusion u)
     (pore_diffusion u) (surface_diffusion u) (c u) (q u).

Definition set_cross_section_area (v : F) u : t F :=
  mk (component_system u) (name u) (binding_model u) (length u)
     (Some v) (bed_porosity u) (particle_radius u)
     (particle_porosity u) (axial_dispersion u) (film_diffusion u)
     (pore_diffusion u) (surface_diffusion u) (c u) (q u).

Definition set_bed_porosity (v : F) u : t F :=
  mk (component_system u) (name u) (binding_model u) (length u)
     (cross_section_area u) (Some v) (particle_radius u)
     (particle_porosity u) (axial_dispersion u) (film_diffusion u)
     (pore_diffusion u) (surface_diffusion u) (c u) (q u).

Definition set_particle_radius (v : F) u : t F :=
  mk (component_system u) (name u) (binding_model u) (length u)
     (cross_section_area u) (bed_porosity u) (Some v)
     (particle_porosity u) (axial_dispersion u) (film_diffusion u)
     (pore_diffusion u) (surface_diffusion u) (c u) (q u).

Definition set_particle_porosity (v : F) u : t F :=
  mk (component_system u) (name u) (binding_model u) (length u)
     (cross_section_area u) (bed_porosity u) (particle_radius u)
     (Some v) (axial_dispersion u) (film_diffusion u)
     (pore_diffusion u) (surface_diffusion u) (c u) (q u).

Definition set_axial_dispersion (v : list F) u : t F :=
  mk (component_system u) (name u) (binding_model u) (length u)
     (cross_section_area u) (bed_porosity u) (particle_radius u)
     (particle_porosity u) (Some v) (film_diffusion u)
     (pore_diffusion u) (surface_diffusion u) (c u) (q u).

Definition set_film_diffusion (v : list F) u : t F :=
  mk (component_system u) (name u) (binding_model u) (length u)
     (cross_section_area u) (bed_porosity u) (particle_radius u)
     (particle_porosity u) (axial_dispersion u) (Some v)
     (pore_diffusion u) (surface_diffusion u) (c u) (q u).

Definition set_pore_diffusion (v : list F) u : t F :=
  mk (component_system u) (name u) (binding_model u) (length u)
     (cross_section_area u) (bed_porosity u) (particle_radius u)
     (particle_porosity u) (axial_dispersion u) (film_diffusion u)
     (Some v) (surface_diffusion u) (c u) (q u).

Definition set_surface_diffusion (v : list F) u : t F :=
  mk (component_system u) (name u) (binding_model u) (length u)
     (cross_section_area u) (bed_porosity u) (particle_radius u)
     (particle_porosity u) (axial_dispersion u) (film_diffusion u)
     (pore_diffusion u) (Some v) (c u) (q u).

Definition set_c (v : list F) u : t F :=
  mk (component_system u) (name u) (binding_model u) (length u)
     (cross_section_area u) (bed_porosity u) (particle_radius u)
     (particle_porosity u) (axial_dispersion u) (film_diffusion u)
     (pore_diffusion u) (surface_diffusion u) (Some v) (q u).

Definition set_q (v : list F) u : t F :=
  mk (component_system u) (name u) (binding_model u) (length u)
     (cross_section_area u) (bed_porosity u) (particle_radius u)
     (particle_porosity u) (axial_dispersion u) (film_diffusion u)
     (pore_diffusion u) (surface_diffusion u) (c u) (Some v).

End Setters.

End GeneralRateModel.

Module Inlet.

Record t (F : Type) := mk {
  component_system : loc;
  name : string;
  flow_rate : option F;
  c : option (list F)
}.
Arguments mk {F}.
Arguments component_system {F}.
Arguments name {F}.
Arguments flow_rate {F}.
Arguments c {F}.

(** [Inlet(component_system, name=...)] *)
Definition new {F} (cs : loc) (nm : string) : t F := mk cs nm None None.

Definition set_flow_rate {F} (v : F) (u : t F) : t F :=
  mk (component_system u) (name u) (Some v) (c u).

End Inlet.

Module Outlet.

Record t := mk { component_system : loc; name : string }.

(** [Outlet(component_system, name=...)] *)
Definition new (cs : loc) (nm : string) : t := mk cs nm.

End Outlet.

Module FlowSheet.

Record t := mk {
  component_system : loc;
  units : list loc;
  product_outlets : list loc;
  connections : list (loc * loc)
}.

(** [FlowSheet(component_system)] *)
Definition new (cs : loc) : t := mk cs [] [] [].

(** [flow_sheet.add_unit(unit, product_outlet=...)] *)
Definition add_unit (unit : loc) (product_outlet : bool) (f : t) : t :=
  mk (component_system f) (units f ++ [unit])
     (if product_outlet then product_outlets f ++ [unit]
      else product_outlets f)
     (connections f).

(** Modelled from the spec: [flow_sheet.add_connection(origin,
    destination)]; sections 6 and 7 have the library refuse a connection
    whose ends are not units of the flow sheet. *)
Definition add_connection (origin destination : loc) (f : t) : option t :=
  if bool_decide (origin ∈ units f) && bool_decide (destination ∈ units f)
  then Some (mk (component_system f) (units f) (product_outlets f)
                (connections f ++ [(origin, destination)]))
  else None.

End FlowSheet.

Module Event.

Record t (F : Type) := mk {
  name : string;
  parameter_path : string;
  state : list F;
  time : F
}.
Arguments mk {F}.
Arguments name {F}.
Arguments parameter_path {F}.
Arguments state {F}.
Arguments time {F}.

End Event.

Module Process.

Record t (F : Type) := mk {
  flow_sheet : loc;
  name : string;
  cycle_time : option F;
  events : list (Event.t F)
}.
Arguments mk {F}.
Arguments flow_sheet {F}.
Arguments name {F}.
Arguments cycle_time {F}.
Arguments events {F}.

(** [Process(flow_sheet, name)] *)
Definition new {F} (fs : loc) (nm : string) : t F := mk fs nm None [].

Definition set_cycle_time {F} (v : F) (p : t F) : t F :=
  mk (flow_sheet p) (name p) (Some v) (events p).

(** Modelled from the spec: the library method [add_event], absent from
    the sources; section 3 has an event be (name, target path, value,
    time), appended to the ordered sequence of events of the process,
    with [time] defaulting to 0 when omitted. *)
Definition add_event {F} `{PyFloat F} (nm path : string) (value : list F)
    (time : option F) (p : t F) : t F :=
  mk (flow_sheet p) (name p) (cycle_time p)
     (events p ++ [Event.mk nm path value (default (lit 0 0) time)]).

End Process.

Inductive obj (F : Type) :=
| OComponentSystem (s : ComponentSystem.t)
| OLinear (b : Linear.t F)
| OGeneralRateModel (u : GeneralRateModel.t F)
| OInlet (u : Inlet.t F)
| OOutlet (u : Outlet.t)
| OFlowSheet (f : FlowSheet.t)
| OProcess (p : Process.t F).
Arguments OComponentSystem {F}.
Arguments OLinear {F}.
Arguments OGeneralRateModel {F}.
Arguments OInlet {F}.
Arguments OOutlet {F}.
Arguments OFlowSheet {F}.
Arguments OProcess {F}.

(** ** The script's world: heap, observable effects, exceptions *)

(** A panel of a subplot grid, by row and column. *)
Definition panel : Type := nat * nat.

(** What the script does that is visible from outside the interpreter: a
    line on standard output, a run of the simulation engine on the process
    as the heap holds it at that moment, calls into the plotting library. *)
Inductive effect (F R : Type) :=
| EPrint (s : string)
| ESimulate (h : list (obj F)) (process : loc)
| ESubplots (nrows ncols : nat) (figsize : Z * Z)
| EPlot (r : R) (ax : option panel)
| ESetTitle (ax : panel) (title : string)
| ETightLayout.
Arguments EPrint {F R}.
Arguments ESimulate {F R}.
Arguments ESubplots {F R}.
Arguments EPlot {F R}.
Arguments ESetTitle {F R}.
Arguments ETightLayout {F R}.

Record World (F R : Type) := mkWorld {
  heap : list (obj F);
  effects : list (effect F R)
}.
Arguments mkWorld {F R}.
Arguments heap {F R}.
Arguments effects {F R}.

Inductive result (X : Type) :=
| Ok (x : X)
| Raise (e : exn).
Arguments Ok {X}.
Arguments Raise {X}.

(** A Python number: the loop variable of the sweep is an [int], the Peclet
    number of the column a [float], and both are bound to one name. *)
Inductive number (F : Type) :=
| PyInt (z : Z)
| PyFloatVal (x : F).
Arguments PyInt {F}.
Arguments PyFloatVal {F}.

(** [str(z)] for an [int]. *)
Definition str_int (z : Z) : string := NilZero.string_of_int (Z.to_int z).

(** [n * l] for an [int] and a list. *)
Definition list_repeat {X} (n : nat) (l : list X) : list X :=
  concat (replicate n l).

(** [enumerate(l)], counting from [i]. *)
Fixpoint enumerate_from {X} (i : nat) (l : list X) : list (nat * X) :=
  match l with
  | [] => []
  | x :: l' => (i, x) :: enumerate_from (S i) l'
  end.

Definition enumerate {X} (l : list X) : list (nat * X) := enumerate_from 0 l.

(** [numpy.ndarray.flatten] on the grid of axes: row-major. *)
Definition flatten {X} (a : list (list X)) : list X := concat a.

(** The grid [plt.subplots(nrows, ncols)] returns. *)
Definition grid (nrows ncols : nat) : list (list panel) :=
  (fun r => (fun c => (r, c)) <$> seq 0 ncols) <$> seq 0 nrows.

Section Script.

Context {F : Type} `{PyFloat F} {R : Type}.

(** The library property [cross_section_area_interstitial] of a column and
    the simulation engine are not part of the sources: both are parameters.
    The engine reads the process through the heap and either returns a
    result or fails. *)
Variable cross_section_area_interstitial : GeneralRateModel.t F -> F.
Variable simulate : list (obj F) -> loc -> option R.

Definition M (X : Type) : Type := World F R -> result X * World F R.

#[export] Instance M_ret : MRet M := fun X x w => (Ok x, w).

#[export] Instance M_bind : MBind M := fun X Y k m w =>
  match m w with
  | (Ok x, w') => k x w'
  | (Raise e, w') => (Raise e, w')
  end.

Definition raise {X} (e : exn) : M X := fun w => (Raise e, w).

Definition emit (e : effect F R) : M unit := fun w =>
  (Ok tt, mkWorld (heap w) (effects w ++ [e])).

Definition alloc (o : obj F) : M loc := fun w =>
  (Ok (List.length (heap w)), mkWorld (heap w ++ [o]) (effects w)).

Definition load (l : loc) : M (obj F) := fun w =>
  match heap w !! l with
  | Some o => (Ok o, w)
  | None => (Raise TypeError, w)
  end.

Definition store (l : loc) (o : obj F) : M unit := fun w =>
  (Ok tt, mkWorld (<[l := o]> (heap w)) (effects w)).

Definition load_component_system (l : loc) : M ComponentSystem.t :=
  o ← load l;
  match o with OComponentSystem s => mret s | _ => raise TypeError end.

Definition load_linear (l : loc) : M (Linear.t F) :=
  o ← load l;
  match o with OLinear b => mret b | _ => raise TypeError end.

Definition load_column (l : loc) : M (GeneralRateModel.t F) :=
  o ← load l;
  match o with OGeneralRateModel u => mret u | _ => raise TypeError end.

Definition load_inlet (l : loc) : M (Inlet.t F) :=
  o ← load l;
  match o with OInlet u => mret u | _ => raise TypeError end.

Definition load_flow_sheet (l : loc) : M FlowSheet.t :=
  o ← load l;
  match o with OFlowSheet f => mret f | _ => raise TypeError end.

Definition load_process (l : loc) : M (Process.t F) :=
  o ← load l;
  match o with OProcess p => mret p | _ => raise TypeError end.

(** Reading an attribute that holds a value. *)
Definition attr {X} (a : option X) : M X :=
  match a with Some x => mret x | None => raise TypeError end.

(** [l[i]] *)
Definition getitem {X} (l : list X) (i : nat) : M X :=
  match l !! i with Some x => mret x | None => raise IndexError end.

(** [x / y] on floats *)
Definition truediv (x y : F) : M F :=
  if fis_zero y then raise ZeroDivisionError else mret (fdiv x y).

(** A [for] loop; the value is what the last iteration left, if any. *)
Fixpoint for_each {X Y} (l : list X) (body : X -> M Y) (last : option Y)
    : M (option Y) :=
  match l with
  | [] => mret last
  | x :: l' => y ← body x; for_each l' body (Some y)
  end.

(** *** Library calls *)

(** Modelled from the spec: [unit.n_comp], the species count of the
    component system the unit was built on (section 3). *)
Definition n_comp (cs : loc) : M nat :=
  s ← load_component_system cs; mret (ComponentSystem.n_comp s).

(** Modelled from the spec: [column.n_bound_states]; the specification
    gives it as 1 for the single species bound by the linear model (section
    8): one bound state per component of the binding model, none without a
    binding model. *)
Definition n_bound_states (column : loc) : M nat :=
  u ← load_column column;
  match GeneralRateModel.binding_model u with
  | None => mret 0%nat
  | Some b => bm ← load_linear b; n_comp (Linear.component_system bm)
  end.

(** Modelled from the spec: the library refuses a per-species array whose
    length is not the expected one (sections 3, 6 and 7). *)
Definition check_size (n : nat) (v : list F) : M unit :=
  if bool_decide (List.length v = n) then mret tt else raise ValueError.

Definition update_linear (l : loc) (f : Linear.t F -> Linear.t F) : M unit :=
  b ← load_linear l; store l (OLinear (f b)).

Definition update_column (l : loc)
    (f : GeneralRateModel.t F -> GeneralRateModel.t F) : M unit :=
  u ← load_column l; store l (OGeneralRateModel (f u)).

Definition update_inlet (l : loc) (f : Inlet.t F -> Inlet.t F) : M unit :=
  u ← load_inlet l; store l (OInlet (f u)).

Definition update_flow_sheet (l : loc) (f : FlowSheet.t -> FlowSheet.t)
    : M unit :=
  s ← load_flow_sheet l; store l (OFlowSheet (f s)).

Definition update_process (l : loc) (f : Process.t F -> Process.t F)
    : M unit :=
  p ← load_process l; store l (OProcess (f p)).

(** Assignment to a per-species rate of the binding model. *)
Definition set_rate (l : loc)
    (set : list F -> Linear.t F -> Linear.t F) (v : list F) : M unit :=
  b ← load_linear l;
  n ← n_comp (Linear.component_system b);
  check_size n v;;
  store l (OLinear (set v b)).

(** [column.n_comp] *)
Definition column_n_comp (column : loc) : M nat :=
  u ← load_column column; n_comp (GeneralRateModel.component_system u).

(** Assignment to an attribute of the column that holds one entry per
    component. *)
Definition set_per_component (column : loc)
    (set : list F -> GeneralRateModel.t F -> GeneralRateModel.t F)
    (v : list F) : M unit :=
  n ← column_n_comp column;
  check_size n v;;
  update_column column (set v).

(** Assignment to an attribute of the column that holds one entry per
    bound state. *)
Definition set_per_bound_state (column : loc)
    (set : list F -> GeneralRateModel.t F -> GeneralRateModel.t F)
    (v : list F) : M unit :=
  n ← n_bound_states column;
  check_size n v;;
  update_column column (set v).

(** [column.axial_dispersion = d] with a scalar [d].  The script assigns a
    scalar (lines 71 and 143) and reads entry 0 back (line 124): the
    library keeps one entry per component. *)
Definition set_axial_dispersion (column : loc) (d : F) : M unit :=
  u ← load_column column;
  n ← n_comp (GeneralRateModel.component_system u);
  store column
    (OGeneralRateModel (GeneralRateModel.set_axial_dispersion (replicate n d) u)).

(** [flow_sheet.add_connection(origin, destination)] *)
Definition add_connection (flow_sheet origin destination : loc) : M unit :=
  s ← load_flow_sheet flow_sheet;
  match FlowSheet.add_connection origin destination s with
  | Some s' => store flow_sheet (OFlowSheet s')
  | None => raise ValueError
  end.

(** [process_simulator.simulate(process)]: the engine runs on the heap as
    it is now; its failure is an exception of the script. *)
Definition cadet_simulate (process : loc) : M R := fun w =>
  let w' := mkWorld (heap w) (effects w ++ [ESimulate (heap w) process]) in
  match simulate (heap w) process with
  | Some r => (Ok r, w')
  | None => (Raise SimulationError, w')
  end.

(** [plt.subplots(nrows, ncols, figsize=...)]: the grid of axes. *)
Definition plt_subplots (nrows ncols : nat) (figsize : Z * Z)
    : M (list (list panel)) :=
  emit (ESubplots nrows ncols figsize);;
  mret (grid nrows ncols).

(** *** The script *)

(** The objects the model-definition cell binds to module-level names. *)
Record Model := mkModel {
  m_component_system : loc;
  m_binding_model : loc;
  m_column : loc;
  m_inlet : loc;
  m_outlet : loc;
  m_flow_sheet : loc
}.

(** The module namespace once the body has run. *)
Record Globals := mkGlobals {
  g_model : Model;
  g_process : loc;
  g_pulse_duration : F;
  g_c_pulse : list F;
  g_c_initial : list F;
  g_peclet_number : number F;
  g_simulation_results : option R
}.

(** [0.3 * (1e-2 / 60)], the interstitial velocity in m/s (lines 79, 124
    and 143). *)
Definition interstitial_velocity : M F :=
  v ← truediv (lit 1 (-2)) (of_int 60);
  mret (fmul (lit 3 (-1)) v).

(** [column.length * (0.3 * (1e-2 / 60))] (lines 124 and 143). *)
Definition length_times_velocity (column : loc) : M F :=
  u ← load_column column;
  L ← attr (GeneralRateModel.length u);
  v ← interstitial_velocity;
  mret (fmul L v).

(** Lines 52-92: component system, binding model, unit operations, flow
    sheet. *)
Definition model_assembly : M Model :=
  component_system ← alloc (OComponentSystem ComponentSystem.new);
  s ← load_component_system component_system;
  store component_system
    (OComponentSystem (ComponentSystem.add_component "A" s));;

  binding_model ← alloc (OLinear (Linear.new component_system "Linear"));
  update_linear binding_model (Linear.set_is_kinetic false);;
  set_rate binding_model Linear.set_adsorption_rate [lit 25 (-1)];;
  set_rate binding_model Linear.set_desorption_rate [lit 10 (-1)];;

  column ← alloc (OGeneralRateModel
                    (GeneralRateModel.new component_system "column"));
  update_column column (GeneralRateModel.set_binding_model binding_model);;
  update_column column (GeneralRateModel.set_length (lit 17 (-3)));;
  update_column column (GeneralRateModel.set_cross_section_area (lit 1 (-3)));;
  update_column column (GeneralRateModel.set_bed_porosity (lit 4 (-1)));;
  update_column column (GeneralRateModel.set_particle_radius (lit 40 (-6)));;
  update_column column (GeneralRateModel.set_particle_porosity (lit 333 (-3)));;
  set_axial_dispersion column (lit 333 (-11));;
  n ← column_n_comp column;
  set_per_component column GeneralRateModel.set_film_diffusion
    (list_repeat n [lit 167 (-8)]);;
  n ← column_n_comp column;
  set_per_component column GeneralRateModel.set_pore_diffusion
    (list_repeat n [lit 3003 (-9)]);;
  n ← n_bound_states column;
  set_per_bound_state column GeneralRateModel.set_surface_diffusion
    (list_repeat n [lit 0 (-1)]);;
  set_per_component column GeneralRateModel.set_c [lit 0 (-1)];;
  set_per_bound_state column GeneralRateModel.set_q [lit 0 (-1)];;

  inlet ← alloc (OInlet (Inlet.new component_system "inlet"));
  u ← load_column column;
  v ← interstitial_velocity;
  update_inlet inlet
    (Inlet.set_flow_rate (fmul (cross_section_area_interstitial u) v));;

  outlet ← alloc (OOutlet (Outlet.new component_system "outlet"));

  flow_sheet ← alloc (OFlowSheet (FlowSheet.new component_system));
  update_flow_sheet flow_sheet (FlowSheet.add_unit inlet false);;
  update_flow_sheet flow_sheet (FlowSheet.add_unit column false);;
  update_flow_sheet flow_sheet (FlowSheet.add_unit outlet true);;
  add_connection flow_sheet inlet column;;
  add_connection flow_sheet column outlet;;
  mret (mkModel component_system binding_model column inlet outlet flow_sheet).

(** Lines 96-105: the process and its two events.  The value is the
    process, [pulse_duration], [c_pulse] and [c_initial]. *)
Definition process_setup (m : Model) : M (loc * F * list F * list F) :=
  process ← alloc (OProcess (Process.new (m_flow_sheet m) "pulse"));
  update_process process (Process.set_cycle_time (of_int (100 * 60)));;
  let pulse_duration := fmul (lit 200 (-1)) (of_int 60) in
  let c_pulse := [lit 10 (-1)] in
  let c_initial := [lit 0 (-1)] in
  update_process process
    (Process.add_event "pulse_start" "flow_sheet.inlet.c" c_pulse None);;
  update_process process
    (Process.add_event "pulse_stop" "flow_sheet.inlet.c" c_initial
       (Some pulse_duration));;
  mret (process, pulse_duration, c_pulse, c_initial).

(** Lines 109-115: the name of the module is printed; under [__main__] the
    process is simulated and the outlet of the column plotted. *)
Definition first_run (__name__ : string) (process : loc) : M (option R) :=
  emit (EPrint __name__);;
  if String.eqb __name__ "__main__" then
    simulation_results ← cadet_simulate process;
    emit (EPlot simulation_results None);;
    mret (Some simulation_results)
  else mret None.

(** Lines 121-125: the Peclet number of the column as configured. *)
Definition peclet_cell (column : loc) : M F :=
  _ ← load_column column;
  lv ← length_times_velocity column;
  u ← load_column column;
  ad ← attr (GeneralRateModel.axial_dispersion u);
  d ← getitem ad 0%nat;
  truediv lv d.

(** The float a number stands for as an operand of float arithmetic. *)
Definition to_float (n : number F) : F :=
  match n with PyInt z => of_int z | PyFloatVal x => x end.

(** Line 143: the dispersion that gives the column the Peclet number
    [peclet_number], for whatever number the name is bound to. *)
Definition assign_dispersion (column : loc) (peclet_number : number F)
    : M unit :=
  lv ← length_times_velocity column;
  d ← truediv lv (to_float peclet_number);
  set_axial_dispersion column d.

(** Lines 143-146: one iteration of the sweep. *)
Definition sweep_body (column process : loc) (axes : list panel)
    (ip : nat * Z) : M (Z * R) :=
  let '(i, peclet_number) := ip in
  assign_dispersion column (PyInt peclet_number);;
  simulation_results ← cadet_simulate process;
  ax ← getitem axes i;
  emit (EPlot simulation_results (Some ax));;
  ax ← getitem axes i;
  emit (ESetTitle ax ("Peclet number: " ++ str_int peclet_number));;
  mret (peclet_number, simulation_results).

(** Line 141 *)
Definition peclet_numbers : list Z := [1; 5; 25; 50; 100; 255].

(** Lines 142-146, for any list of Peclet numbers. *)
Definition sweep (column process : loc) (axes : list panel)
    (pes : list Z) : M (option (Z * R)) :=
  for_each (enumerate pes) (sweep_body column process axes) None.

(** Lines 133-148: under [__main__], the sweep over [peclet_numbers] on a
    3 x 2 grid of panels. *)
Definition sweep_block (__name__ : string) (column process : loc)
    : M (option (Z * R)) :=
  if String.eqb __name__ "__main__" then
    axes ← plt_subplots 3 2 (10, 12);
    let axes := flatten axes in
    last ← sweep column process axes peclet_numbers;
    emit ETightLayout;;
    mret last
  else mret None.

(** The module body, run under the name [__name__]. *)
Definition module_body (__name__ : string) : M Globals :=
  m ← model_assembly;
  '(process, pulse_duration, c_pulse, c_initial) ← process_setup m;
  first ← first_run __name__ process;
  peclet_number ← peclet_cell (m_column m);
  last ← sweep_block __name__ (m_column m) process;
  mret (mkGlobals m process pulse_duration c_pulse c_initial
          (match last with
           | Some (pe, _) => PyInt pe
           | None => PyFloatVal peclet_number
           end)
          (match last with
           | Some (_, r) => Some r
           | None => first
           end)).

(** Running the module in a fresh interpreter. *)
Definition empty_world : World F R := mkWorld [] [].

Definition run (__name__ : string) : result Globals * World F R :=
  module_body __name__ empty_world.

End Script.

(** ** The configuration the script builds *)

Section Configured.

Context {F : Type} `{PyFloat F}.
Variable cross_section_area_interstitial : GeneralRateModel.t F -> F.

(** The zero tests the module body makes on its divisors: on [60.0]
    (lines 79, 124, 143), on the configured dispersion [3.33e-9] (line
    124) and on the Peclet numbers of the sweep (line 143).  An arithmetic
    is sane when none of them is taken for zero. *)
Record sane_arith : Prop := {
  sixty_nonzero : fis_zero (of_int 60) = false;
  dispersion_nonzero : fis_zero (lit 333 (-11)) = false;
  peclets_nonzero :
    Forall (fun pe => fis_zero (of_int pe) = false) peclet_numbers
}.

(** [0.3 * (1e-2 / 60)] *)
Definition velocity : F := fmul (lit 3 (-1)) (fdiv (lit 1 (-2)) (of_int 60)).

(** The dispersion the sweep assigns for a Peclet number. *)
Definition dispersion_for (pe : F) : F :=
  fdiv (fmul (lit 17 (-3)) velocity) pe.

(** Objects are allocated in the order of the constructor calls. *)
Definition the_model : Model := mkModel 0%nat 1%nat 2%nat 3%nat 4%nat 5%nat.
Definition the_process : loc := 6%nat.

Definition configured_binding_model : Linear.t F :=
  Linear.mk 0%nat "Linear" (Some false)
    (Some [lit 25 (-1)]) (Some [lit 10 (-1)]).

(** The column, with [ad] for its axial dispersion. *)
Definition configured_column (ad : list F) : GeneralRateModel.t F :=
  GeneralRateModel.mk 0%nat "column" (Some 1%nat)
    (Some (lit 17 (-3))) (Some (lit 1 (-3))) (Some (lit 4 (-1)))
    (Some (lit 40 (-6))) (Some (lit 333 (-3)))
    (Some ad)
    (Some [lit 167 (-8)]) (Some [lit 3003 (-9)]) (Some [lit 0 (-1)])
    (Some [lit 0 (-1)]) (Some [lit 0 (-1)]).

(** The inlet; its flow rate was computed from the column as line 79 found
    it. *)
Definition configured_inlet : Inlet.t F :=
  Inlet.mk 0%nat "inlet"
    (Some (fmul (cross_section_area_interstitial
                   (configured_column [lit 333 (-11)])) velocity))
    None.

Definition configured_flow_sheet : FlowSheet.t :=
  FlowSheet.mk 0%nat [3; 2; 4]%nat [4]%nat [(3, 2); (2, 4)]%nat.

Definition pulse_start : Event.t F :=
  Event.mk "pulse_start" "flow_sheet.inlet.c" [lit 10 (-1)] (lit 0 0).

Definition pulse_stop : Event.t F :=
  Event.mk "pulse_stop" "flow_sheet.inlet.c" [lit 0 (-1)]
    (fmul (lit 200 (-1)) (of_int 60)).

Definition configured_process : Process.t F :=
  Process.mk 5%nat "pulse" (Some (of_int 6000)) [pulse_start; pulse_stop].

(** The heap once the model and the process are built, with [ad] for the
    axial dispersion of the column. *)
Definition configured_heap (ad : list F) : list (obj F) :=
  [ OComponentSystem (ComponentSystem.mk ["A"]);
    OLinear configured_binding_model;
    OGeneralRateModel (configured_column ad);
    OInlet configured_inlet;
    OOutlet (Outlet.mk 0%nat "outlet");
    OFlowSheet configured_flow_sheet;
    OProcess configured_process ].

(** Reading objects back from a heap. *)
Definition column_at (h : list (obj F)) (l : loc)
    : option (GeneralRateModel.t F) :=
  match h !! l with Some (OGeneralRateModel u) => Some u | _ => None end.

Definition linear_at (h : list (obj F)) (l : loc) : option (Linear.t F) :=
  match h !! l with Some (OLinear b) => Some b | _ => None end.

Definition inlet_at (h : list (obj F)) (l : loc) : option (Inlet.t F) :=
  match h !! l with Some (OInlet u) => Some u | _ => None end.

Definition process_at (h : list (obj F)) (l : loc) : option (Process.t F) :=
  match h !! l with Some (OProcess p) => Some p | _ => None end.

Definition flow_sheet_at (h : list (obj F)) (l : loc) : option FlowSheet.t :=
  match h !! l with Some (OFlowSheet f) => Some f | _ => None end.

(** The dispersion an engine finds when it follows the process to its flow
    sheet and the flow sheet to its column. *)
Definition seen_dispersion (h : list (obj F)) (process : loc)
    : option (list F) :=
  p ← process_at h process;
  f ← flow_sheet_at h (Process.flow_sheet p);
  u ← head (omap (column_at h) (FlowSheet.units f));
  GeneralRateModel.axial_dispersion u.

(** The units of a flow sheet that are inlets. *)
Definition inlets (h : list (obj F)) (flow_sheet : loc) : list loc :=
  match flow_sheet_at h flow_sheet with
  | Some f => filter (fun l => is_Some (inlet_at h l)) (FlowSheet.units f)
  | None => []
  end.

(** The events of a process that set a concentration other than zero. *)
Definition feeding_events (p : Process.t F) : list (Event.t F) :=
  List.filter (fun ev => negb (forallb fis_zero (Event.state ev)))
    (Process.events p).

(** All process objects of a heap. *)
Definition processes (h : list (obj F)) : list (Process.t F) :=
  omap (fun o => match o with OProcess p => Some p | _ => None end) h.

End Configured.

(** ** Statements about runs *)

Section Statements.

Context {F : Type} `{PyFloat F} {R : Type}.
Variable cross_section_area_interstitial : GeneralRateModel.t F -> F.
Variable simulate : list (obj F) -> loc -> option R.

(** What the engine returns on the configured process when it succeeds, by
    the dispersion of the column. *)
Variable sim : F -> R.

Local Abbreviation cheap := (configured_heap cross_section_area_interstitial).

(** A property of the world that a computation keeps, however it ends. *)
Definition keeps {X} (P : World F R -> Prop) (m : M X) : Prop :=
  forall w, P w -> P (snd (m w)).

(** What a computation returns when it does not raise. *)
Definition returns {X} (Q : X -> Prop) (m : M (F := F) (R := R) X) : Prop :=
  forall w x w', m w = (Ok x, w') -> Q x.

(** The heap is the configured one, up to the dispersion of the column. *)
Definition shaped (w : World F R) : Prop :=
  exists d, heap w = cheap [d].

(** The cells after the model definition: lines 109-148. *)
Definition driver (name : string) (process : loc) (pd : F) (cp ci : list F)
    : M Globals :=
  first ← first_run simulate name process;
  peclet_number ← peclet_cell (m_column the_model);
  last ← sweep_block simulate name (m_column the_model) process;
  mret (mkGlobals the_model process pd cp ci
          (match last with
           | Some (pe, _) => PyInt pe
           | None => PyFloatVal peclet_number
           end)
          (match last with
           | Some (_, r) => Some r
           | None => first
           end)).

(** What one iteration shows: the engine runs on the heap that holds the
    new dispersion, its result goes to panel [i], the panel gets its
    title. *)
Definition iteration_effects (axes : list panel) (ip : nat * Z)
    : list (effect F R) :=
  let d := dispersion_for (of_int (snd ip)) in
  let ax := default (0, 0)%nat (axes !! fst ip) in
  [ESimulate (cheap [d]) the_process;
   EPlot (sim d) (Some ax);
   ESetTitle ax ("Peclet number: " ++ str_int (snd ip))].

Definition sweep_effects (axes : list panel) (ips : list (nat * Z))
    : list (effect F R) :=
  concat (iteration_effects axes <$> ips).

(** The dispersion and the loop variables after the Peclet numbers [pes],
    starting from [d0] and [last]. *)
Definition final_dispersion (d0 : F) (pes : list Z) : F :=
  foldl (fun _ pe => dispersion_for (of_int pe)) d0 pes.

Definition final_binding (last : option (Z * R)) (pes : list Z)
    : option (Z * R) :=
  foldl (fun _ pe => Some (pe, sim (dispersion_for (of_int pe)))) last pes.

(** What the sweep cell shows. *)
Definition sweep_block_effects : list (effect F R) :=
  [ESubplots 3 2 (10, 12)]
  ++ sweep_effects (flatten (grid 3 2)) (enumerate peclet_numbers)
  ++ [ETightLayout].

(** Everything the script shows when run as [__main__]. *)
Definition main_effects : list (effect F R) :=
  [EPrint "__main__";
   ESimulate (cheap [lit 333 (-11)]) the_process;
   EPlot (sim (lit 333 (-11))) None]
  ++ sweep_block_effects.

End Statements.

(** What one iteration of the sweep shows for the Peclet number [pe] and
    the panel [ax]: the engine runs on the heap whose column has the
    dispersion (length x velocity) / pe, its result is plotted on the
    panel, the panel gets its title. *)
Definition sweep_step {F} `{PyFloat F} {R : Type}
    (csai : GeneralRateModel.t F -> F) (sim : F -> R)
    (ax : panel) (pe : Z) (title : string) : list (effect F R) :=
  [ESimulate (configured_heap csai [dispersion_for (of_int pe)]) the_process;
   EPlot (sim (dispersion_for (of_int pe))) (Some ax);
   ESetTitle ax title].

(** ** Stand-ins for the two parameters

    To run the script on concrete inputs: the interstitial cross-section
    area as bed porosity times cross-section area, and an engine that
    returns the dispersion it finds through the process. *)

Definition interstitial_area {F} `{PyFloat F} (u : GeneralRateModel.t F) : F :=
  match GeneralRateModel.bed_porosity u, GeneralRateModel.cross_section_area u
  with
  | Some eps, Some a => fmul eps a
  | _, _ => lit 0 0
  end.

Definition echo_engine {F} (h : list (obj F)) (process : loc)
    : option (list F) :=
  seen_dispersion h process.

(** An engine that fails to converge when the dispersion it finds is below
    [limit], and returns the dispersion otherwise. *)
Definition fussy_engine {F} `{PyFloat F} (limit : F) (h : list (obj F))
    (process : loc) : option (list F) :=
  match seen_dispersion h process with
  | Some [d] => if fltb d limit then None else Some [d]
  | _ => None
  end.

(** An engine that always fails. *)
Definition broken_engine {F} (h : list (obj F)) (process : loc)
    : option (list F) := None.

(** ** Statements about every run and every sweep *)

Section Invariants.

Context {F : Type} `{PyFloat F} {R : Type}.
Variable cross_section_area_interstitial : GeneralRateModel.t F -> F.
Variable simulate : list (obj F) -> loc -> option R.
Variable sim : F -> R.

Local Abbreviation cheap := (configured_heap cross_section_area_interstitial).

(** The dispersions the script ever assigns to the column: the configured
    one (line 71) and one per Peclet number of the sweep (line 143). *)
Definition assigned_dispersions : list F :=
  lit 333 (-11) :: ((fun pe => dispersion_for (of_int pe)) <$> peclet_numbers).

(** The heap is the configured one, with one of the assigned dispersions
    for the column. *)
Definition tidy_heap (h : list (obj F)) : Prop :=
  exists d, d ∈ assigned_dispersions /\ h = cheap [d].

(** A run of the engine is on the process of the script and on such a
    heap. *)
Definition tidy_effect (ef : effect F R) : Prop :=
  match ef with
  | ESimulate h process => process = the_process /\ tidy_heap h
  | _ => True
  end.

Definition tidy (w : World F R) : Prop :=
  tidy_heap (heap w) /\ Forall tidy_effect (effects w).

(** The engine succeeds, with the result [sim] gives, for the dispersion
    of each of the Peclet numbers [pes], none of which is taken for zero. *)
Definition sweepable (pes : list Z) : Prop :=
  Forall
    (fun pe =>
       fis_zero (of_int pe) = false /\
       simulate (cheap [dispersion_for (of_int pe)]) the_process
       = Some (sim (dispersion_for (of_int pe))))
    pes.

(** The dispersion of the column and the loop variables after a sweep over
    [pes]: those of the last Peclet number, if there is one. *)
Definition last_dispersion (d0 : F) (pes : list Z) : F :=
  match last pes with
  | Some pe => dispersion_for (of_int pe)
  | None => d0
  end.

Definition last_binding (pes : list Z) : option (Z * R) :=
  (fun pe => (pe, sim (dispersion_for (of_int pe)))) <$> last pes.

End Invariants.

(** A flow sheet is a chain when each unit is connected to the next one and
    to nothing else. *)
Definition chain (f : FlowSheet.t) : Prop :=
  FlowSheet.connections f
  = zip (FlowSheet.units f) (drop 1 (FlowSheet.units f)).

(** The component system a unit or a binding model is built on. *)
Definition component_system_of {F} (o : obj F) : option loc :=
  match o with
  | OComponentSystem _ => None
  | OLinear b => Some (Linear.component_system b)
  | OGeneralRateModel u => Some (GeneralRateModel.component_system u)
  | OInlet u => Some (Inlet.component_system u)
  | OOutlet u => Some (Outlet.component_system u)
  | OFlowSheet f => Some (FlowSheet.component_system f)
  | OProcess _ => None
  end.

(** ** Binary64 against the real numbers *)

(** The real number a binary64 float stands for, when it is finite. *)
Definition float_value (x : float) : option Q :=
  match Prim2SF x with
  | S754_zero _ => Some 0%Q
  | S754_finite s m e =>
      Some (Qred ((if s then -1 else 1) * inject_Z (Z.pos m) * Qpower 2 e))
  | S754_infinity _ => None
  | S754_nan => None
  end.

(** [x] is finite and within the relative distance [tol] of [target]. *)
Definition close (tol : Q) (x : option Q) (target : Q) : bool :=
  match x with
  | Some v => Qle_bool (Qabs (v - target)) (tol * Qabs target)
  | None => false
  end.

(** [x] and [y] are finite and [0 < y < x]. *)
Definition below (x y : option Q) : bool :=
  match x, y with
  | Some u, Some v => negb (Qle_bool v 0) && negb (Qle_bool u v)
  | _, _ => false
  end.

(** The integers [z], [z + 1], ..., [n] of them. *)
Fixpoint count_from (z : Z) (n : nat) : list Z :=
  match n with
  | O => []
  | S n' => z :: count_from (z + 1) n'
  end.

(** For the integer Peclet number [z], in binary64: neither [z] nor the
    dispersion of line 143 is taken for zero, that dispersion is within
    2^-50 of (0.017 x (0.3 x (0.01 / 60))) / z, the Peclet number line 124
    recomputes from it is within 2^-52 of [z], and the dispersion for
    [z + 1] is positive and smaller. *)
Definition binary64_inversion_ok (z : Z) : bool :=
  let d := dispersion_for (F := float) (of_int z) in
  let pe' := fdiv (fmul (lit 17 (-3)) velocity) d in
  negb (fis_zero (F := float) (of_int z))
  && negb (fis_zero d)
  && close (1 # 2 ^ 50) (float_value d)
       ((17 # 1000) * ((3 # 10) * ((1 # 100) / 60)) / inject_Z z)
  && close (1 # 2 ^ 52) (float_value pe') (inject_Z z)
  && below (float_value d)
       (float_value (dispersion_for (F := float) (of_int (z + 1)))).

(** The integer Peclet numbers the binary64 statements cover. *)
Definition checked_peclets : list Z := count_from 1 (Z.to_nat 10000).


(** ** Reasoning about runs *)

Section Run.

Context {F : Type} `{PyFloat F} {R : Type}.
Variable cross_section_area_interstitial : GeneralRateModel.t F -> F.
Variable simulate : list (obj F) -> loc -> option R.

Local Abbreviation csai := cross_section_area_interstitial.
Local Abbreviation cheap := (configured_heap cross_section_area_interstitial).

Hypothesis sane : sane_arith.

Implicit Types (P : World F R -> Prop) (w : World F R).

(** *** Stepping through binds *)

Lemma bind_ok {X Y} (m : M (F := F) (R := R) X) (k : X -> M Y) w x w' :
  m w = (Ok x, w') -> (m ≫= k) w = k x w'.
Proof. intros E. unfold mbind, M_bind. rewrite E. reflexivity. Qed.

Lemma bind_raise {X Y} (m : M (F := F) (R := R) X) (k : X -> M Y) w e w' :
  m w = (Raise e, w') -> (m ≫= k) w = (Raise e, w').
Proof. intros E. unfold mbind, M_bind. rewrite E. reflexivity. Qed.

Lemma keeps_ret {X} P (x : X) : keeps P (mret x).
Proof. intros w Pw. exact Pw. Qed.

Lemma keeps_raise {X} P e : keeps P (raise (X := X) e).
Proof. intros w Pw. exact Pw. Qed.

Lemma keeps_bind {X Y} P (m : M X) (k : X -> M Y) :
  keeps P m -> (forall x, keeps P (k x)) -> keeps P (m ≫= k).
Proof.
  intros Km Kk w Pw. specialize (Km w Pw).
  unfold mbind, M_bind. destruct (m w) as [[x | e] w']; simpl in *.
  - apply Kk, Km.
  - exact Km.
Qed.

Lemma keeps_for_each {X Y} P (body : X -> M Y) :
  (forall x, keeps P (body x)) ->
  forall l last, keeps P (for_each l body last).
Proof.
  intros Kb l. induction l as [| x l IH]; intros last; simpl.
  - apply keeps_ret.
  - apply keeps_bind; [apply Kb | intros y; apply IH].
Qed.

(** *** The model-definition cells *)

Lemma interstitial_velocity_ok (w : World F R) :
  interstitial_velocity w = (Ok velocity, w).
Proof.
  unfold interstitial_velocity, truediv.
  rewrite (sixty_nonzero sane). reflexivity.
Qed.

Lemma model_assembly_ok :
  model_assembly csai (empty_world (R := R))
  = (Ok the_model, mkWorld (take 6 (cheap [lit 333 (-11)])) []).
Proof.
  unfold model_assembly, interstitial_velocity, truediv.
  rewrite (sixty_nonzero sane). reflexivity.
Qed.

Lemma process_setup_ok (e : list (effect F R)) :
  process_setup the_model (mkWorld (take 6 (cheap [lit 333 (-11)])) e)
  = (Ok (the_process, fmul (lit 200 (-1)) (of_int 60),
         [lit 10 (-1)], [lit 0 (-1)]),
     mkWorld (cheap [lit 333 (-11)]) e).
Proof. reflexivity. Qed.

(** *** The guarded cells *)

Lemma first_run_import name h e :
  name <> "__main__" ->
  first_run simulate name the_process (mkWorld h e)
  = (Ok None, mkWorld h (e ++ [EPrint name])).
Proof.
  intros Hn. unfold first_run.
  rewrite (proj2 (String.eqb_neq _ _) Hn). reflexivity.
Qed.

Lemma first_run_main h e r :
  simulate h the_process = Some r ->
  first_run simulate "__main__" the_process (mkWorld h e)
  = (Ok (Some r),
     mkWorld h (e ++ [EPrint "__main__"; ESimulate h the_process;
                      EPlot r None])).
Proof.
  intros E. unfold first_run, cadet_simulate, mbind, M_bind, emit. simpl.
  rewrite E. simpl. rewrite <- !app_assoc. reflexivity.
Qed.

Lemma plt_subplots_ok nrows ncols figsize h (e : list (effect F R)) :
  plt_subplots nrows ncols figsize (mkWorld h e)
  = (Ok (grid nrows ncols), mkWorld h (e ++ [ESubplots nrows ncols figsize])).
Proof. reflexivity. Qed.

Lemma peclet_cell_ok d e :
  fis_zero d = false ->
  peclet_cell (R := R) (m_column the_model) (mkWorld (cheap [d]) e)
  = (Ok (fdiv (fmul (lit 17 (-3)) velocity) d), mkWorld (cheap [d]) e).
Proof.
  intros Hd.
  unfold peclet_cell, length_times_velocity, interstitial_velocity, truediv.
  rewrite (sixty_nonzero sane). unfold mbind, M_bind. simpl. rewrite Hd. reflexivity.
Qed.

Lemma assign_dispersion_step pe d0 e :
  assign_dispersion (R := R) (m_column the_model) pe (mkWorld (cheap [d0]) e)
  = if fis_zero (to_float pe)
    then (Raise ZeroDivisionError, mkWorld (cheap [d0]) e)
    else (Ok tt, mkWorld (cheap [dispersion_for (to_float pe)]) e).
Proof.
  unfold assign_dispersion, length_times_velocity, interstitial_velocity,
    truediv.
  rewrite (sixty_nonzero sane).
  destruct (fis_zero (to_float pe)); reflexivity.
Qed.

(** *** What every run leaves on the heap *)

Lemma stateless_keeps {X} P (m : M X) :
  (forall w, snd (m w) = w) -> keeps P m.
Proof. intros E w Pw. rewrite E. exact Pw. Qed.

Lemma load_keeps P l : keeps P (load l).
Proof.
  apply stateless_keeps. intros w. unfold load.
  destruct (heap w !! l); reflexivity.
Qed.

Lemma attr_keeps {X} P (a : option X) : keeps P (attr a).
Proof. destruct a; [apply keeps_ret | apply keeps_raise]. Qed.

Lemma getitem_keeps {X} P (l : list X) i : keeps P (getitem l i).
Proof.
  unfold getitem. destruct (l !! i); [apply keeps_ret | apply keeps_raise].
Qed.

Lemma truediv_keeps P x y : keeps P (truediv x y).
Proof.
  unfold truediv. destruct (fis_zero y); [apply keeps_raise | apply keeps_ret].
Qed.

Lemma emit_keeps e : keeps (shaped (R := R) csai) (emit e).
Proof. intros w [d Hd]. exists d. exact Hd. Qed.

Lemma cadet_simulate_keeps p : keeps (shaped (R := R) csai) (cadet_simulate simulate p).
Proof.
  intros w [d Hd]. unfold cadet_simulate.
  destruct (simulate (heap w) p); exists d; exact Hd.
Qed.

Lemma assign_dispersion_keeps pe :
  keeps (shaped (R := R) csai) (assign_dispersion (m_column the_model) pe).
Proof.
  intros [h e] [d Hd]. simpl in Hd. subst h.
  rewrite assign_dispersion_step.
  destruct (fis_zero (to_float pe)); simpl; eexists; reflexivity.
Qed.

Create HintDb keeps.
#[local] Hint Resolve keeps_ret keeps_raise load_keeps attr_keeps
  getitem_keeps truediv_keeps emit_keeps cadet_simulate_keeps
  assign_dispersion_keeps : keeps.

Ltac keeps_steps :=
  repeat first
    [ solve [auto with keeps]
    | apply keeps_bind; [| intro]
    | match goal with
      | |- keeps _ (match ?x with _ => _ end) => destruct x
      end ].

Lemma sweep_body_keeps axes ip :
  keeps (shaped (R := R) csai) (sweep_body simulate (m_column the_model) the_process axes ip).
Proof. unfold sweep_body. keeps_steps. Qed.

Lemma sweep_keeps axes pes :
  keeps (shaped (R := R) csai) (sweep simulate (m_column the_model) the_process axes pes).
Proof. apply keeps_for_each. intros ip. apply sweep_body_keeps. Qed.

Lemma sweep_block_keeps name :
  keeps (shaped (R := R) csai) (sweep_block simulate name (m_column the_model) the_process).
Proof.
  pose proof sweep_keeps.
  unfold sweep_block, plt_subplots.
  destruct (String.eqb name "__main__"); keeps_steps.
Qed.

Lemma first_run_keeps name : keeps (shaped (R := R) csai) (first_run simulate name the_process).
Proof. unfold first_run. keeps_steps. Qed.

Lemma peclet_cell_keeps : keeps (shaped (R := R) csai) (peclet_cell (m_column the_model)).
Proof.
  unfold peclet_cell, length_times_velocity, interstitial_velocity, load_column.
  keeps_steps.
Qed.

#[local] Hint Resolve sweep_block_keeps first_run_keeps peclet_cell_keeps
  : keeps.

Lemma run_driver name :
  run csai simulate name
  = driver simulate name the_process (fmul (lit 200 (-1)) (of_int 60))
      [lit 10 (-1)] [lit 0 (-1)] (mkWorld (cheap [lit 333 (-11)]) []).
Proof.
  unfold run, module_body.
  rewrite (bind_ok _ _ _ _ _ model_assembly_ok).
  rewrite (bind_ok _ _ _ _ _ (process_setup_ok [])).
  reflexivity.
Qed.

Lemma run_shaped name : shaped csai (snd (run csai simulate name)).
Proof.
  rewrite run_driver.
  assert (K : keeps (shaped (R := R) csai)
                (driver simulate name the_process (fmul (lit 200 (-1)) (of_int 60))
                   [lit 10 (-1)] [lit 0 (-1)])).
  { unfold driver. keeps_steps. }
  apply K. eexists. reflexivity.
Qed.

Lemma returns_ret {X} (Q : X -> Prop) x :
  Q x -> returns (F := F) (R := R) Q (mret x).
Proof. intros Qx w y w' E. inversion E; subst. exact Qx. Qed.

Lemma returns_bind {X Y} (Q : Y -> Prop) (m : M (F := F) (R := R) X)
    (k : X -> M Y) :
  (forall x, returns Q (k x)) -> returns Q (m ≫= k).
Proof.
  intros Kk w y w' E. unfold mbind, M_bind in E.
  destruct (m w) as [[x | e] w1]; [| discriminate].
  exact (Kk x w1 y w' E).
Qed.

(** The names the module binds to the objects and to the pulse. *)
Lemma run_globals name g w :
  run csai simulate name = (Ok g, w) ->
  g_model g = the_model /\ g_process g = the_process /\
  g_pulse_duration g = fmul (lit 200 (-1)) (of_int 60) /\
  g_c_pulse g = [lit 10 (-1)] /\ g_c_initial g = [lit 0 (-1)].
Proof.
  rewrite run_driver. revert g w.
  generalize (mkWorld (R := R) (cheap [lit 333 (-11)]) []).
  intros w0 g w. revert w0 g w.
  change (returns
            (fun g => g_model g = the_model /\ g_process g = the_process /\
               g_pulse_duration g = fmul (lit 200 (-1)) (of_int 60) /\
               g_c_pulse g = [lit 10 (-1)] /\ g_c_initial g = [lit 0 (-1)])
            (driver simulate name the_process (fmul (lit 200 (-1)) (of_int 60))
               [lit 10 (-1)] [lit 0 (-1)])).
  unfold driver. repeat (apply returns_bind; intro).
  apply returns_ret. repeat split.
Qed.

(** Importing: the guarded cells do nothing. *)
Lemma run_import name :
  name <> "__main__" ->
  run csai simulate name
  = (Ok (mkGlobals the_model the_process (fmul (lit 200 (-1)) (of_int 60))
           [lit 10 (-1)] [lit 0 (-1)]
           (PyFloatVal (fdiv (fmul (lit 17 (-3)) velocity) (lit 333 (-11))))
           None),
     mkWorld (cheap [lit 333 (-11)]) [EPrint name]).
Proof.
  intros Hn. rewrite run_driver. unfold driver.
  rewrite (bind_ok _ _ _ _ _ (first_run_import _ _ _ Hn)).
  rewrite (bind_ok _ _ _ _ _ (peclet_cell_ok _ _ (dispersion_nonzero sane))).
  unfold sweep_block. rewrite (proj2 (String.eqb_neq _ _) Hn).
  reflexivity.
Qed.

(** *** When the engine fails *)

Lemma for_each_raise {X Y} (body : X -> M (F := F) (R := R) Y) x l last
    w e w' :
  body x w = (Raise e, w') -> for_each (x :: l) body last w = (Raise e, w').
Proof. intros E. cbn [for_each]. apply bind_raise, E. Qed.

(** A failure of the first simulation ends the module body: nothing is
    plotted and the sweep does not start. *)
Lemma first_failure_aborts :
  simulate (cheap [lit 333 (-11)]) the_process = None ->
  run csai simulate "__main__"
  = (Raise SimulationError,
     mkWorld (cheap [lit 333 (-11)])
       [EPrint "__main__"; ESimulate (cheap [lit 333 (-11)]) the_process]).
Proof.
  intros E. rewrite run_driver. unfold driver.
  apply bind_raise.
  unfold first_run, cadet_simulate, mbind, M_bind, emit. simpl.
  rewrite E. reflexivity.
Qed.

(** A failure of the engine in an iteration of the sweep ends the loop;
    the column keeps the dispersion assigned in that iteration. *)
Lemma sweep_failure_aborts axes i pe pes d0 e last :
  fis_zero (of_int pe) = false ->
  simulate (cheap [dispersion_for (of_int pe)]) the_process = None ->
  for_each (enumerate_from i (pe :: pes))
    (sweep_body simulate (m_column the_model) the_process axes) last
    (mkWorld (cheap [d0]) e)
  = (Raise SimulationError,
     mkWorld (cheap [dispersion_for (of_int pe)])
       (e ++ [ESimulate (cheap [dispersion_for (of_int pe)]) the_process])).
Proof.
  intros Hz E. apply for_each_raise. unfold sweep_body.
  erewrite bind_ok by (rewrite assign_dispersion_step; simpl; rewrite Hz;
                       reflexivity).
  apply bind_raise. unfold cadet_simulate. simpl. rewrite E. reflexivity.
Qed.

(** *** The sweep when the engine succeeds *)

Section Succeeding.

(** The engine returns [sim d] on the configured process when the column
    has dispersion [d]. *)
Variable sim : F -> R.
Hypothesis simulate_ok :
  forall d, simulate (cheap [d]) the_process = Some (sim d).

Lemma sweep_body_ok axes i pe ax d0 e :
  fis_zero (of_int pe) = false ->
  axes !! i = Some ax ->
  sweep_body simulate (m_column the_model) the_process axes (i, pe)
    (mkWorld (cheap [d0]) e)
  = (Ok (pe, sim (dispersion_for (of_int pe))),
     mkWorld (cheap [dispersion_for (of_int pe)])
       (e ++ iteration_effects csai sim axes (i, pe))).
Proof.
  intros Hz Hax. unfold sweep_body.
  erewrite bind_ok by (rewrite assign_dispersion_step; simpl; rewrite Hz;
                       reflexivity).
  erewrite bind_ok by (unfold cadet_simulate; simpl; rewrite simulate_ok;
                       reflexivity).
  unfold getitem, iteration_effects, panel in *. cbn [fst snd]. rewrite Hax.
  unfold mbind, M_bind, emit. cbn [default heap effects mret M_ret].
  rewrite <- !app_assoc. reflexivity.
Qed.

Lemma sweep_from_ok axes pes : forall i d0 e last,
  Forall (fun pe => fis_zero (of_int pe) = false) pes ->
  (i + List.length pes <= List.length axes)%nat ->
  for_each (enumerate_from i pes)
    (sweep_body simulate (m_column the_model) the_process axes) last
    (mkWorld (cheap [d0]) e)
  = (Ok (final_binding sim last pes),
     mkWorld (cheap [final_dispersion d0 pes])
       (e ++ sweep_effects csai sim axes (enumerate_from i pes))).
Proof.
  induction pes as [| pe pes IH]; intros i d0 e last Hz Hlen.
  - simpl. unfold sweep_effects. simpl. rewrite app_nil_r. reflexivity.
  - inversion Hz as [| ? ? Hpe Hpes]; subst. simpl in Hlen.
    destruct (lookup_lt_is_Some_2 axes i) as [ax Hax]; [lia |].
    cbn [enumerate_from for_each].
    rewrite (bind_ok _ _ _ _ _ (sweep_body_ok _ _ _ _ _ _ Hpe Hax)).
    rewrite IH by (trivial || lia).
    unfold sweep_effects. cbn [fmap list_fmap concat foldl final_binding
                               final_dispersion].
    rewrite <- app_assoc. reflexivity.
Qed.

Lemma sweep_block_main d0 e :
  sweep_block simulate "__main__" (m_column the_model) the_process
    (mkWorld (cheap [d0]) e)
  = (Ok (final_binding sim None peclet_numbers),
     mkWorld (cheap [final_dispersion d0 peclet_numbers])
       (e ++ sweep_block_effects csai sim)).
Proof.
  unfold sweep_block, sweep, enumerate. rewrite String.eqb_refl.
  rewrite (bind_ok _ _ _ _ _ (plt_subplots_ok _ _ _ _ _)).
  erewrite bind_ok
    by (apply sweep_from_ok; [apply (peclets_nonzero sane) | simpl; lia]).
  unfold sweep_block_effects, mbind, M_bind, emit.
  cbn [heap effects mret M_ret]. rewrite <- !app_assoc. reflexivity.
Qed.

Lemma run_main :
  run csai simulate "__main__"
  = (Ok (mkGlobals the_model the_process (fmul (lit 200 (-1)) (of_int 60))
           [lit 10 (-1)] [lit 0 (-1)]
           (PyInt 255)
           (Some (sim (dispersion_for (of_int 255))))),
     mkWorld (cheap [dispersion_for (of_int 255)]) (main_effects csai sim)).
Proof.
  rewrite run_driver. unfold driver.
  rewrite (bind_ok _ _ _ _ _ (first_run_main _ _ _ (simulate_ok _))).
  rewrite (bind_ok _ _ _ _ _ (peclet_cell_ok _ _ (dispersion_nonzero sane))).
  rewrite (bind_ok _ _ _ _ _ (sweep_block_main _ _)).
  reflexivity.
Qed.

End Succeeding.

End Run.

(** ** The two arithmetics are sane *)

Lemma Exact_sane : sane_arith (F := Q).
Proof. split; [reflexivity | reflexivity | repeat constructor]. Qed.

Lemma Binary64_sane : sane_arith (F := float).
Proof. split; [reflexivity | reflexivity | repeat constructor]. Qed.

(** The binary64 literals are the ones the parser of floating-point
    constants produces. *)
Lemma Binary64_literals :
  [lit 17 (-3); lit 1 (-3); lit 4 (-1); lit 40 (-6); lit 333 (-3);
   lit 333 (-11); lit 167 (-8); lit 3003 (-9); lit 3 (-1); lit 1 (-2);
   lit 25 (-1); lit 10 (-1); lit 200 (-1); lit 0 (-1)]
  = [0.017; 1e-3; 0.4; 4.0e-5; 0.333; 3.33e-9; 1.67e-6; 3.003e-6; 0.3; 1e-2;
     2.5; 1.0; 20.0; 0.0]%float.
Proof. reflexivity. Qed.

Lemma echo_engine_ok {F} `{PyFloat F} (csai : GeneralRateModel.t F -> F) d :
  echo_engine (configured_heap csai [d]) the_process = Some [d].
Proof. reflexivity. Qed.

(** ** The Peclet number and its inversion *)

(** In exact arithmetic, [column.length * (0.3 * (1e-2 / 60))] is
    17/20000000, that is 8.5e-7. *)
Lemma exact_length_times_velocity :
  fmul (F := Q) (lit 17 (-3)) velocity = 17 # 20000000.
Proof. reflexivity. Qed.

Lemma exact_is_zero_false (x : Q) : ~ x == 0 -> fis_zero x = false.
Proof.
  intros Hx. simpl. unfold Exact.is_zero.
  destruct (Qeq_bool x 0) eqn:E; [| reflexivity].
  apply Qeq_bool_iff in E. contradiction.
Qed.

Lemma exact_dispersion_for (pe : Q) :
  dispersion_for pe == (17 # 20000000) / pe.
Proof.
  unfold dispersion_for. rewrite exact_length_times_velocity.
  simpl. unfold Exact.div. apply Qred_correct.
Qed.

(** In binary64 the round trip is exact for each Peclet number of the
    sweep: the column gets the quotient, and line 124 on that column
    returns the Peclet number itself. *)
Lemma peclet_roundtrip_binary64 (R : Type)
    (csai : GeneralRateModel.t float -> float) (e : list (effect float R)) :
  Forall
    (fun pe : Z =>
       let w' := mkWorld (configured_heap csai [dispersion_for (of_int pe)]) e in
       assign_dispersion (m_column the_model) (PyInt pe)
         (mkWorld (configured_heap csai [lit 333 (-11)]) e) = (Ok tt, w') /\
       peclet_cell (m_column the_model) w' = (Ok (of_int pe), w'))
    peclet_numbers.
Proof.
  repeat constructor;
    try (rewrite (assign_dispersion_step csai Binary64_sane); reflexivity);
    try (rewrite (peclet_cell_ok csai Binary64_sane) by reflexivity;
         reflexivity).
Qed.

(** C5: with length 0.017, velocity 0.3 x (1e-2 / 60) and dispersion
    3.33e-9, the Peclet number line 124 binds is 255.25525525525526 in
    binary64 and 85000/333 in exact arithmetic, both within 0.3 of 255. *)
Theorem peclet_number_about_255 (name : string) :
  name <> "__main__" ->
  (forall R csai simulate,
     exists g w pe,
       run (F := float) (R := R) csai simulate name = (Ok g, w) /\
       g_peclet_number g = PyFloatVal pe /\
       pe = 255.25525525525526%float /\
       PrimFloat.ltb 255 pe = true /\ PrimFloat.ltb pe 255.3 = true) /\
  (forall R csai simulate,
     exists g w pe,
       run (F := Q) (R := R) csai simulate name = (Ok g, w) /\
       g_peclet_number g = PyFloatVal pe /\
       pe = 85000 # 333 /\
       (pe == (17 # 1000) * ((3 # 10) * ((1 # 100) / 60)) / (333 # 100000000000))%Q /\
       (Qabs (pe - 255) < 3 # 10)%Q).
Proof.
  intros Hn. split; intros R csai simulate.
  - eexists _, _, _. split; [apply (run_import csai simulate Binary64_sane _ Hn) |].
    repeat split.
  - eexists _, _, _. split; [apply (run_import csai simulate Exact_sane _ Hn) |].
    repeat split.
Qed.

Lemma peclet_number_about_255_witness :
  "GRM_for_linear_LC" <> "__main__" /\
  exists g w pe,
    run (F := float) interstitial_area echo_engine "GRM_for_linear_LC"
      = (Ok g, w) /\
    g_peclet_number g = PyFloatVal pe /\
    pe = 255.25525525525526%float /\
    PrimFloat.ltb 255 pe = true /\ PrimFloat.ltb pe 255.3 = true.
Proof.
  assert (Hn : "GRM_for_linear_LC" <> "__main__") by discriminate.
  split; [exact Hn |].
  exact (proj1 (peclet_number_about_255 "GRM_for_linear_LC" Hn)
           (list float) interstitial_area echo_engine).
Defined.

(** ** The process and its events *)

(** C2: whatever the module is run as and whatever the engine does, the
    heap holds one process, and that process carries exactly two events:
    [pulse_start] on [flow_sheet.inlet.c] with value [1.0] at time 0 (the
    default of the omitted argument) and [pulse_stop] on the same path with
    value [0.0] at time 1200; when the module body completes, these values
    are the ones bound to [c_pulse], [c_initial] and [pulse_duration].  In
    binary64 and in exact arithmetic. *)
Theorem pulse_events (name : string) :
  (forall R csai simulate,
     Process.events
       <$> processes (heap (snd (run (F := float) (R := R) csai simulate name)))
     = [[Event.mk "pulse_start" "flow_sheet.inlet.c" [1%float] 0%float;
         Event.mk "pulse_stop" "flow_sheet.inlet.c" [0%float] 1200%float]] /\
     forall g w, run (F := float) (R := R) csai simulate name = (Ok g, w) ->
       g_c_pulse g = [1%float] /\ g_c_initial g = [0%float] /\
       g_pulse_duration g = 1200%float /\
       Process.events <$> process_at (heap w) (g_process g)
       = Some [Event.mk "pulse_start" "flow_sheet.inlet.c" (g_c_pulse g) 0%float;
               Event.mk "pulse_stop" "flow_sheet.inlet.c" (g_c_initial g)
                 (g_pulse_duration g)]) /\
  (forall R csai simulate,
     Process.events
       <$> processes (heap (snd (run (F := Q) (R := R) csai simulate name)))
     = [[Event.mk "pulse_start" "flow_sheet.inlet.c" [1%Q] 0%Q;
         Event.mk "pulse_stop" "flow_sheet.inlet.c" [0%Q] 1200%Q]] /\
     forall g w, run (F := Q) (R := R) csai simulate name = (Ok g, w) ->
       g_c_pulse g = [1%Q] /\ g_c_initial g = [0%Q] /\
       g_pulse_duration g = 1200%Q /\
       Process.events <$> process_at (heap w) (g_process g)
       = Some [Event.mk "pulse_start" "flow_sheet.inlet.c" (g_c_pulse g) 0%Q;
               Event.mk "pulse_stop" "flow_sheet.inlet.c" (g_c_initial g)
                 (g_pulse_duration g)]).
Proof.
  split; intros R csai simulate.
  - destruct (run_shaped csai simulate Binary64_sane name) as [d Hd].
    split; [rewrite Hd; reflexivity |].
    intros g w Hg. rewrite Hg in Hd. simpl in Hd.
    destruct (run_globals csai simulate Binary64_sane name g w Hg)
      as (_ & Hp & Hpd & Hcp & Hci).
    rewrite Hd, Hp, Hpd, Hcp, Hci. repeat split.
  - destruct (run_shaped csai simulate Exact_sane name) as [d Hd].
    split; [rewrite Hd; reflexivity |].
    intros g w Hg. rewrite Hg in Hd. simpl in Hd.
    destruct (run_globals csai simulate Exact_sane name g w Hg)
      as (_ & Hp & Hpd & Hcp & Hci).
    rewrite Hd, Hp, Hpd, Hcp, Hci. repeat split.
Qed.

Lemma pulse_events_witness :
  exists g w,
    run (F := float) interstitial_area echo_engine "__main__" = (Ok g, w) /\
    g_c_pulse g = [1%float] /\ g_c_initial g = [0%float] /\
    g_pulse_duration g = 1200%float /\
    Process.events <$> process_at (heap w) (g_process g)
    = Some [Event.mk "pulse_start" "flow_sheet.inlet.c" (g_c_pulse g) 0%float;
            Event.mk "pulse_stop" "flow_sheet.inlet.c" (g_c_initial g)
              (g_pulse_duration g)].
Proof.
  eexists _, _. split; [vm_compute; reflexivity |].
  eapply (proj2 (proj1 (pulse_events "__main__")
                   (list float) interstitial_area echo_engine)).
  vm_compute; reflexivity.
Defined.

(** C7: the events are scheduled in order and within the cycle: the time
    of [pulse_start] (0) is strictly less than the time of [pulse_stop]
    (1200), which is at most the cycle time (6000), and every event time
    lies between 0 and the cycle time.  In binary64 and in exact
    arithmetic, for every run. *)
Theorem event_times_ordered (name : string) :
  (forall R csai simulate,
     exists p start stop cycle,
       processes (heap (snd (run (F := float) (R := R) csai simulate name)))
       = [p] /\
       Process.events p = [start; stop] /\
       Process.cycle_time p = Some cycle /\
       Event.name start = "pulse_start" /\ Event.name stop = "pulse_stop" /\
       Event.time start = 0%float /\ Event.time stop = 1200%float /\
       cycle = 6000%float /\
       PrimFloat.ltb (Event.time start) (Event.time stop) = true /\
       PrimFloat.leb (Event.time stop) cycle = true /\
       Forall (fun ev => PrimFloat.leb 0 (Event.time ev) = true /\
                         PrimFloat.leb (Event.time ev) cycle = true)
         (Process.events p)) /\
  (forall R csai simulate,
     exists p start stop cycle,
       processes (heap (snd (run (F := Q) (R := R) csai simulate name)))
       = [p] /\
       Process.events p = [start; stop] /\
       Process.cycle_time p = Some cycle /\
       Event.name start = "pulse_start" /\ Event.name stop = "pulse_stop" /\
       Event.time start = 0%Q /\ Event.time stop = 1200%Q /\
       cycle = 6000%Q /\
       (Event.time start < Event.time stop)%Q /\
       (Event.time stop <= cycle)%Q /\
       Forall (fun ev => (0 <= Event.time ev)%Q /\ (Event.time ev <= cycle)%Q)
         (Process.events p)).
Proof.
  split; intros R csai simulate.
  - destruct (run_shaped csai simulate Binary64_sane name) as [d Hd].
    rewrite Hd. eexists _, _, _, _.
    split; [reflexivity |]. split; [reflexivity |]. split; [reflexivity |].
    repeat split; repeat constructor.
  - destruct (run_shaped csai simulate Exact_sane name) as [d Hd].
    rewrite Hd. eexists _, _, _, _.
    split; [reflexivity |]. split; [reflexivity |]. split; [reflexivity |].
    repeat split; repeat constructor; discriminate.
Qed.

(** ** The configuration of the units *)

(** C6: the flow rate of the inlet is the interstitial cross-section area
    of the column times the interstitial velocity 0.3 x (1e-2 / 60),
    whatever the library takes that area to be; the column the area was
    read from is the column of every later heap, up to its dispersion. *)
Theorem inlet_flow_rate {F} `{PyFloat F} (R : Type)
    (csai : GeneralRateModel.t F -> F)
    (simulate : list (obj F) -> loc -> option R) (name : string) :
  sane_arith ->
  exists u d,
    inlet_at (heap (snd (run csai simulate name))) (m_inlet the_model)
    = Some u /\
    Inlet.flow_rate u
    = Some (fmul (csai (configured_column [lit 333 (-11)]))
              (fmul (lit 3 (-1)) (fdiv (lit 1 (-2)) (of_int 60)))) /\
    column_at (heap (snd (run csai simulate name))) (m_column the_model)
    = Some (GeneralRateModel.set_axial_dispersion [d]
              (configured_column [lit 333 (-11)])).
Proof.
  intros sane. destruct (run_shaped csai simulate sane name) as [d Hd].
  rewrite Hd. exists (configured_inlet csai), d. repeat split.
Qed.

Lemma inlet_flow_rate_witness :
  sane_arith (F := float) /\
  exists u d,
    inlet_at
      (heap (snd (run (F := float) interstitial_area echo_engine "__main__")))
      (m_inlet the_model)
    = Some u /\
    Inlet.flow_rate u
    = Some (fmul (interstitial_area (configured_column [lit 333 (-11)]))
              (fmul (lit 3 (-1)) (fdiv (lit 1 (-2)) (of_int 60)))) /\
    column_at
      (heap (snd (run (F := float) interstitial_area echo_engine "__main__")))
      (m_column the_model)
    = Some (GeneralRateModel.set_axial_dispersion [d]
              (configured_column [lit 333 (-11)])).
Proof.
  split; [exact Binary64_sane |].
  exact (inlet_flow_rate (list float) interstitial_area echo_engine "__main__"
           Binary64_sane).
Defined.

(** C8: with the single component of the system, [film_diffusion] and
    [pore_diffusion] hold one entry each, the number of components, and
    [surface_diffusion] holds one entry, the number of bound states. *)
Theorem diffusion_array_lengths {F} `{PyFloat F} (R : Type)
    (csai : GeneralRateModel.t F -> F)
    (simulate : list (obj F) -> loc -> option R) (name : string) :
  sane_arith ->
  exists h e u fd pd sd,
    snd (run csai simulate name) = mkWorld h e /\
    column_at h (m_column the_model) = Some u /\
    GeneralRateModel.film_diffusion u = Some fd /\
    GeneralRateModel.pore_diffusion u = Some pd /\
    GeneralRateModel.surface_diffusion u = Some sd /\
    column_n_comp (m_column the_model) (mkWorld h e) = (Ok 1%nat, mkWorld h e) /\
    n_bound_states (m_column the_model) (mkWorld h e)
    = (Ok 1%nat, mkWorld h e) /\
    List.length fd = 1%nat /\ List.length pd = 1%nat /\
    List.length sd = 1%nat.
Proof.
  intros sane. destruct (run_shaped csai simulate sane name) as [d Hd].
  destruct (snd (run csai simulate name)) as [h e]. simpl in Hd. subst h.
  eexists _, e, (configured_column [d]), _, _, _. repeat split.
Qed.

Lemma diffusion_array_lengths_witness :
  sane_arith (F := float) /\
  exists h e u fd pd sd,
    snd (run (F := float) interstitial_area echo_engine "__main__")
    = mkWorld h e /\
    column_at h (m_column the_model) = Some u /\
    GeneralRateModel.film_diffusion u = Some fd /\
    GeneralRateModel.pore_diffusion u = Some pd /\
    GeneralRateModel.surface_diffusion u = Some sd /\
    column_n_comp (m_column the_model) (mkWorld h e) = (Ok 1%nat, mkWorld h e) /\
    n_bound_states (m_column the_model) (mkWorld h e)
    = (Ok 1%nat, mkWorld h e) /\
    List.length fd = 1%nat /\ List.length pd = 1%nat /\
    List.length sd = 1%nat.
Proof.
  split; [exact Binary64_sane |].
  exact (diffusion_array_lengths (list float) interstitial_area echo_engine
           "__main__" Binary64_sane).
Defined.

(** C10: the binding model of the column is not kinetic, with adsorption
    rate [2.5] and desorption rate [1.0], whose quotient is 2.5; the column
    starts with [c = [0.0]] and [q = [0.0]]; the flow sheet has one inlet,
    and the only event that sets a concentration other than zero is
    [pulse_start].  In binary64 and in exact arithmetic, for every run. *)
Theorem binding_and_initial_state (name : string) :
  (forall R csai simulate,
     exists h b u p,
       h = heap (snd (run (F := float) (R := R) csai simulate name)) /\
       column_at h (m_column the_model) = Some u /\
       GeneralRateModel.binding_model u = Some (m_binding_model the_model) /\
       linear_at h (m_binding_model the_model) = Some b /\
       processes h = [p] /\
       Linear.is_kinetic b = Some false /\
       Linear.adsorption_rate b = Some [2.5%float] /\
       Linear.desorption_rate b = Some [1%float] /\
       PrimFloat.div 2.5 1 = 2.5%float /\
       GeneralRateModel.c u = Some [0%float] /\
       GeneralRateModel.q u = Some [0%float] /\
       inlets h (m_flow_sheet the_model) = [m_inlet the_model] /\
       feeding_events p
       = [Event.mk "pulse_start" "flow_sheet.inlet.c" [1%float] 0%float]) /\
  (forall R csai simulate,
     exists h b u p,
       h = heap (snd (run (F := Q) (R := R) csai simulate name)) /\
       column_at h (m_column the_model) = Some u /\
       GeneralRateModel.binding_model u = Some (m_binding_model the_model) /\
       linear_at h (m_binding_model the_model) = Some b /\
       processes h = [p] /\
       Linear.is_kinetic b = Some false /\
       Linear.adsorption_rate b = Some [5 # 2] /\
       Linear.desorption_rate b = Some [1%Q] /\
       ((5 # 2) / 1 == 5 # 2)%Q /\
       GeneralRateModel.c u = Some [0%Q] /\
       GeneralRateModel.q u = Some [0%Q] /\
       inlets h (m_flow_sheet the_model) = [m_inlet the_model] /\
       feeding_events p
       = [Event.mk "pulse_start" "flow_sheet.inlet.c" [1%Q] 0%Q]).
Proof.
  split; intros R csai simulate.
  - destruct (run_shaped csai simulate Binary64_sane name) as [d Hd].
    rewrite Hd.
    eexists _, (configured_binding_model), (configured_column [d]),
      (configured_process).
    repeat split.
  - destruct (run_shaped csai simulate Exact_sane name) as [d Hd].
    rewrite Hd.
    eexists _, (configured_binding_model), (configured_column [d]),
      (configured_process).
    repeat split.
Qed.

(** ** Import and run *)

(** C4 as stated fails: importing the module does show something, since
    line 109 prints the name of the module before the first guard. *)
Lemma import_prints_name :
  "GRM_for_linear_LC" <> "__main__" /\
  effects
    (snd (run (F := float) interstitial_area echo_engine "GRM_for_linear_LC"))
  = [EPrint "GRM_for_linear_LC"] /\
  effects
    (snd (run (F := float) interstitial_area echo_engine "GRM_for_linear_LC"))
  <> [].
Proof.
  split; [discriminate |].
  split; [vm_compute; reflexivity |].
  vm_compute. discriminate.
Qed.

(** C4, amended: when the module is imported, the module body completes,
    builds the configured objects, and shows exactly one thing, the line
    with the name of the module that line 109 prints: the engine is not
    run and nothing is plotted. *)
Theorem import_effects {F} `{PyFloat F} (R : Type)
    (csai : GeneralRateModel.t F -> F)
    (simulate : list (obj F) -> loc -> option R) (name : string) :
  sane_arith ->
  name <> "__main__" ->
  exists g,
    run csai simulate name
    = (Ok g, mkWorld (configured_heap csai [lit 333 (-11)]) [EPrint name]) /\
    g_simulation_results g = None.
Proof.
  intros sane Hn. eexists. split; [apply (run_import csai simulate sane _ Hn) |].
  reflexivity.
Qed.

Lemma import_effects_witness :
  sane_arith (F := float) /\
  "GRM_for_linear_LC" <> "__main__" /\
  exists g,
    run (F := float) interstitial_area echo_engine "GRM_for_linear_LC"
    = (Ok g, mkWorld (configured_heap interstitial_area [lit 333 (-11)])
               [EPrint "GRM_for_linear_LC"]) /\
    g_simulation_results g = None.
Proof.
  assert (Hn : "GRM_for_linear_LC" <> "__main__") by discriminate.
  split; [exact Binary64_sane |]. split; [exact Hn |].
  exact (import_effects (list float) interstitial_area echo_engine
           "GRM_for_linear_LC" Binary64_sane Hn).
Defined.

(** ** The sweep over any list of Peclet numbers *)

Section Sweeps.

Context {F : Type} `{PyFloat F} {R : Type}.
Variable cross_section_area_interstitial : GeneralRateModel.t F -> F.
Variable simulate : list (obj F) -> loc -> option R.
Variable sim : F -> R.

Local Abbreviation csai := cross_section_area_interstitial.
Local Abbreviation cheap := (configured_heap cross_section_area_interstitial).
Local Abbreviation body :=
  (sweep_body simulate (m_column the_model) the_process).

Hypothesis sane : sane_arith.

(** One iteration for a Peclet number that is not zero, whatever the
    engine and the panels do. *)
Lemma sweep_body_run axes i pe d0 (e : list (effect F R)) :
  fis_zero (of_int pe) = false ->
  body axes (i, pe) (mkWorld (cheap [d0]) e)
  = let d := dispersion_for (of_int pe) in
    let e1 := (e ++ [ESimulate (cheap [d]) the_process])%list in
    match simulate (cheap [d]) the_process with
    | None => (Raise SimulationError, mkWorld (cheap [d]) e1)
    | Some r =>
        match axes !! i with
        | None => (Raise IndexError, mkWorld (cheap [d]) e1)
        | Some ax =>
            (Ok (pe, r),
             mkWorld (cheap [d])
               (e1 ++ [EPlot r (Some ax);
                       ESetTitle ax ("Peclet number: " ++ str_int pe)]))
        end
    end.
Proof.
  intros Hz. unfold sweep_body.
  erewrite bind_ok
    by (rewrite (assign_dispersion_step csai sane); simpl; rewrite Hz;
        reflexivity).
  unfold cadet_simulate, getitem, mbind, M_bind, emit, panel in *.
  cbn [heap effects].
  destruct (simulate (cheap [dispersion_for (of_int pe)]) the_process);
    [| reflexivity].
  destruct (axes !! i); cbn [heap effects mret M_ret raise];
    [| reflexivity].
  rewrite <- !app_assoc. reflexivity.
Qed.


Lemma for_each_app {X Y} (f : X -> M (F := F) (R := R) Y) l1 l2 :
  forall last w last' w',
    for_each l1 f last w = (Ok last', w') ->
    for_each (l1 ++ l2) f last w = for_each l2 f last' w'.
Proof.
  induction l1 as [| x l1 IH]; intros last w last' w' E.
  - cbn in E. inversion E; subst. reflexivity.
  - cbn [for_each app] in *. unfold mbind, M_bind in *.
    destruct (f x w) as [[y | ex] w1]; [| discriminate].
    exact (IH _ _ _ _ E).
Qed.

Lemma enumerate_from_app {X} (l1 l2 : list X) : forall i,
  enumerate_from i (l1 ++ l2)
  = (enumerate_from i l1 ++ enumerate_from (i + List.length l1) l2)%list.
Proof.
  induction l1 as [| x l1 IH]; intros i; cbn [enumerate_from app List.length].
  - rewrite Nat.add_0_r. reflexivity.
  - rewrite IH. rewrite Nat.add_succ_r. reflexivity.
Qed.

Lemma final_dispersion_last d0 pes :
  final_dispersion d0 pes = last_dispersion d0 pes.
Proof.
  unfold final_dispersion, last_dispersion.
  induction pes as [| pe pes IH] using rev_ind; [reflexivity |].
  rewrite foldl_app, last_snoc. reflexivity.
Qed.

Lemma final_binding_last pes :
  final_binding sim None pes = last_binding sim pes.
Proof.
  unfold final_binding, last_binding.
  induction pes as [| pe pes IH] using rev_ind; [reflexivity |].
  rewrite foldl_app, last_snoc. reflexivity.
Qed.

(** The iterations for Peclet numbers the engine succeeds on, while there
    are panels. *)
Lemma sweep_prefix axes pes : forall i d0 e last,
  sweepable csai simulate sim pes ->
  (i + List.length pes <= List.length axes)%nat ->
  for_each (enumerate_from i pes) (body axes) last (mkWorld (cheap [d0]) e)
  = (Ok (final_binding sim last pes),
     mkWorld (cheap [final_dispersion d0 pes])
       (e ++ sweep_effects csai sim axes (enumerate_from i pes))).
Proof.
  induction pes as [| pe pes IH]; intros i d0 e last Hs Hlen.
  - cbn. unfold sweep_effects. cbn. rewrite app_nil_r. reflexivity.
  - inversion Hs as [| ? ? [Hz Hsim] Hpes]; subst. cbn [List.length] in Hlen.
    destruct (lookup_lt_is_Some_2 axes i) as [ax Hax]; [lia |].
    cbn [enumerate_from for_each].
    erewrite bind_ok
      by (rewrite (sweep_body_run _ _ _ _ _ Hz); cbn zeta; rewrite Hsim;
          unfold panel in *; rewrite Hax; reflexivity).
    rewrite IH by (trivial || lia).
    unfold sweep_effects, iteration_effects, panel in *.
    cbn [fmap list_fmap concat foldl final_binding final_dispersion fst snd].
    rewrite Hax. cbn [default]. rewrite <- !app_assoc. reflexivity.
Qed.

End Sweeps.

(** ** What every run keeps *)

Section EveryRun.

Context {F : Type} `{PyFloat F} {R : Type}.
Variable cross_section_area_interstitial : GeneralRateModel.t F -> F.
Variable simulate : list (obj F) -> loc -> option R.

Local Abbreviation csai := cross_section_area_interstitial.
Local Abbreviation cheap := (configured_heap cross_section_area_interstitial).
Local Abbreviation neat := (tidy (R := R) cross_section_area_interstitial).

Hypothesis sane : sane_arith.

Lemma emit_keeps_tidy ef : tidy_effect csai ef -> keeps neat (emit ef).
Proof.
  intros Hef w [Hh He]. split; [exact Hh |].
  cbn. apply Forall_app. split; [exact He | repeat constructor; exact Hef].
Qed.

Lemma cadet_simulate_keeps_tidy :
  keeps neat (cadet_simulate simulate the_process).
Proof.
  intros w [Hh He]. unfold cadet_simulate.
  destruct (simulate (heap w) the_process); (split; [exact Hh |]);
    cbn; apply Forall_app; (split; [exact He |]);
    repeat constructor; exact Hh.
Qed.

Lemma assign_dispersion_keeps_tidy pe :
  pe ∈ peclet_numbers ->
  keeps neat (assign_dispersion (m_column the_model) (PyInt pe)).
Proof.
  intros Hin [h e] [(d & Hd & Hh) He]. cbn in Hh, He. subst h.
  rewrite (assign_dispersion_step csai sane).
  destruct (fis_zero (to_float (PyInt pe))); (split; [| exact He]); cbn.
  - exists d. split; [exact Hd | reflexivity].
  - exists (dispersion_for (of_int pe)). split; [| reflexivity].
    unfold assigned_dispersions. apply elem_of_cons. right.
    apply (list_elem_of_fmap_2 (fun pe => dispersion_for (of_int pe))), Hin.
Qed.

Lemma keeps_for_each_in {X Y} (P : World F R -> Prop) (f : X -> M Y) l :
  (forall x, x ∈ l -> keeps P (f x)) ->
  forall last, keeps P (for_each l f last).
Proof.
  induction l as [| x l IH]; intros Kf last; cbn [for_each].
  - apply keeps_ret.
  - apply keeps_bind.
    + apply Kf. apply elem_of_cons. left. reflexivity.
    + intros y. apply IH. intros x' Hx'. apply Kf.
      apply elem_of_cons. right. exact Hx'.
Qed.

Lemma elem_of_enumerate_from {X} (l : list X) : forall k i x,
  (i, x) ∈ enumerate_from k l -> x ∈ l.
Proof.
  induction l as [| y l IH]; intros k i x Hin; cbn [enumerate_from] in Hin.
  - apply elem_of_nil in Hin. contradiction.
  - apply elem_of_cons in Hin. destruct Hin as [E | Hin].
    + inversion E; subst. apply elem_of_cons. left. reflexivity.
    + apply elem_of_cons. right. exact (IH _ _ _ Hin).
Qed.

Lemma sweep_body_keeps_tidy axes i pe :
  pe ∈ peclet_numbers ->
  keeps neat (sweep_body simulate (m_column the_model) the_process axes (i, pe)).
Proof.
  intros Hin. unfold sweep_body.
  apply keeps_bind; [apply assign_dispersion_keeps_tidy, Hin | intros _].
  apply keeps_bind; [apply cadet_simulate_keeps_tidy | intros r].
  apply keeps_bind; [apply getitem_keeps | intros ax].
  apply keeps_bind; [apply emit_keeps_tidy; exact I | intros _].
  apply keeps_bind; [apply getitem_keeps | intros ax'].
  apply keeps_bind; [apply emit_keeps_tidy; exact I | intros _].
  apply keeps_ret.
Qed.

Lemma sweep_block_keeps_tidy name :
  keeps neat (sweep_block simulate name (m_column the_model) the_process).
Proof.
  unfold sweep_block, plt_subplots, sweep.
  destruct (String.eqb name "__main__"); [| apply keeps_ret].
  apply keeps_bind.
  { apply keeps_bind; [apply emit_keeps_tidy; exact I | intros _].
    apply keeps_ret. }
  intros axes. apply keeps_bind.
  { apply keeps_for_each_in. intros [i pe] Hin.
    apply sweep_body_keeps_tidy. exact (elem_of_enumerate_from _ _ _ _ Hin). }
  intros last. apply keeps_bind; [apply emit_keeps_tidy; exact I | intros _].
  apply keeps_ret.
Qed.

Lemma first_run_keeps_tidy name :
  keeps neat (first_run simulate name the_process).
Proof.
  unfold first_run.
  apply keeps_bind; [apply emit_keeps_tidy; exact I | intros _].
  destruct (String.eqb name "__main__"); [| apply keeps_ret].
  apply keeps_bind; [apply cadet_simulate_keeps_tidy | intros r].
  apply keeps_bind; [apply emit_keeps_tidy; exact I | intros _].
  apply keeps_ret.
Qed.

Lemma peclet_cell_keeps_any (P : World F R -> Prop) column :
  keeps P (peclet_cell column).
Proof.
  unfold peclet_cell, length_times_velocity, interstitial_velocity,
    load_column.
  repeat first
    [ apply keeps_ret | apply keeps_raise | apply load_keeps
    | apply attr_keeps | apply getitem_keeps | apply truediv_keeps
    | apply keeps_bind; [| intro]
    | match goal with
      | |- keeps _ (match ?x with _ => _ end) => destruct x
      end ].
Qed.

(** X6: however a run ends (imported, run as [__main__], stopped by a
    failure of the engine at any call), the heap it leaves is the
    configured one with, for the dispersion of the column, the configured
    value or the value of one of the six Peclet numbers; and every run of
    the engine in the log was on the process of the script and on such a
    heap.  Nothing but [column.axial_dispersion] is assigned after the
    model is built. *)
Theorem every_run_is_tidy name :
  (exists d,
     d ∈ lit 333 (-11)
         :: ((fun pe => dispersion_for (of_int pe)) <$> [1; 5; 25; 50; 100; 255])
     /\ heap (snd (run csai simulate name)) = cheap [d]) /\
  (forall h process,
     ESimulate h process ∈ effects (snd (run csai simulate name)) ->
     process = the_process /\
     exists d,
       d ∈ lit 333 (-11)
           :: ((fun pe => dispersion_for (of_int pe)) <$> [1; 5; 25; 50; 100; 255])
       /\ h = cheap [d]).
Proof.
  assert (T : neat (snd (run csai simulate name))).
  { rewrite (run_driver csai simulate sane).
    assert (K : keeps neat
                  (driver simulate name the_process
                     (fmul (lit 200 (-1)) (of_int 60))
                     [lit 10 (-1)] [lit 0 (-1)])).
    { unfold driver.
      apply keeps_bind; [apply first_run_keeps_tidy | intros first].
      apply keeps_bind; [apply peclet_cell_keeps_any | intros pn].
      apply keeps_bind; [apply sweep_block_keeps_tidy | intros last].
      apply keeps_ret. }
    apply K. split; [| constructor].
    exists (lit 333 (-11)). split; [apply elem_of_cons; left |]; reflexivity. }
  destruct T as [Hh He]. split; [exact Hh |].
  intros h process Hin.
  rewrite Forall_forall in He. exact (He _ Hin).
Qed.

(** X7: run as [__main__] with an engine that fails on the process as
    configured, the module body stops at line 114 with that failure: the
    log holds the printed name and the failed run, nothing is plotted, the
    Peclet number of line 124 is not computed, the sweep does not start and
    the column keeps its configured dispersion. *)
Theorem first_simulation_failure :
  simulate (cheap [lit 333 (-11)]) the_process = None ->
  run csai simulate "__main__"
  = (Raise SimulationError,
     mkWorld (cheap [lit 333 (-11)])
       [EPrint "__main__"; ESimulate (cheap [lit 333 (-11)]) the_process]).
Proof.
  intros E. rewrite (run_driver csai simulate sane). unfold driver.
  apply bind_raise.
  unfold first_run, cadet_simulate, mbind, M_bind, emit.
  cbn [heap effects String.eqb Ascii.eqb Bool.eqb app].
  rewrite E. reflexivity.
Qed.

(** X8: in the heap of every run the flow sheet is the chain inlet ->
    column -> outlet with the outlet as its only product outlet, the one
    process is on that flow sheet, the three units are an inlet, a general
    rate model and an outlet, and the binding model, the units and the flow
    sheet are all built on the one component system. *)
Theorem flow_sheet_is_chain name :
  exists h f,
    h = heap (snd (run csai simulate name)) /\
    flow_sheet_at h (m_flow_sheet the_model) = Some f /\
    FlowSheet.units f
    = [m_inlet the_model; m_column the_model; m_outlet the_model] /\
    chain f /\
    FlowSheet.connections f
    = [(m_inlet the_model, m_column the_model);
       (m_column the_model, m_outlet the_model)] /\
    FlowSheet.product_outlets f = [m_outlet the_model] /\
    Process.flow_sheet <$> processes h = [m_flow_sheet the_model] /\
    is_Some (inlet_at h (m_inlet the_model)) /\
    is_Some (column_at h (m_column the_model)) /\
    (exists o, h !! m_outlet the_model = Some (OOutlet o)) /\
    Forall
      (fun o => forall cs, component_system_of o = Some cs ->
                           cs = m_component_system the_model)
      h.
Proof.
  destruct (run_shaped csai simulate sane name) as [d Hd].
  exists (cheap [d]), configured_flow_sheet. rewrite Hd.
  repeat split; try reflexivity; try (eexists; reflexivity).
  repeat constructor; intros cs E; inversion E; reflexivity.
Qed.

End EveryRun.

(** ** The extra properties on concrete inputs *)

Lemma every_run_is_tidy_witness :
  sane_arith (F := float) /\
  (exists d : float,
     d ∈ lit 333 (-11)
         :: ((fun pe => dispersion_for (of_int pe)) <$> [1; 5; 25; 50; 100; 255])
     /\ heap (snd (run interstitial_area (fussy_engine (lit 1 (-7))) "__main__"))
        = configured_heap interstitial_area [d]) /\
  (forall h process,
     ESimulate h process
     ∈ effects (snd (run interstitial_area (fussy_engine (lit 1 (-7)))
                       "__main__")) ->
     process = the_process /\
     exists d : float,
       d ∈ lit 333 (-11)
           :: ((fun pe => dispersion_for (of_int pe)) <$> [1; 5; 25; 50; 100; 255])
       /\ h = configured_heap interstitial_area [d]).
Proof.
  split; [exact Binary64_sane |].
  exact (every_run_is_tidy interstitial_area (fussy_engine (lit 1 (-7)))
           Binary64_sane "__main__").
Defined.

Lemma first_simulation_failure_witness :
  sane_arith (F := float) /\
  broken_engine (configured_heap interstitial_area [lit 333 (-11)])
    the_process = None /\
  run (F := float) interstitial_area broken_engine "__main__"
  = (Raise SimulationError,
     mkWorld (configured_heap interstitial_area [lit 333 (-11)])
       [EPrint "__main__";
        ESimulate (configured_heap interstitial_area [lit 333 (-11)])
          the_process]).
Proof.
  split; [exact Binary64_sane |]. split; [reflexivity |].
  exact (first_simulation_failure interstitial_area broken_engine
           Binary64_sane eq_refl).
Defined.

Lemma flow_sheet_is_chain_witness :
  sane_arith (F := float) /\
  exists h f,
    h = heap (snd (run (F := float) interstitial_area echo_engine "__main__")) /\
    flow_sheet_at h (m_flow_sheet the_model) = Some f /\
    FlowSheet.units f
    = [m_inlet the_model; m_column the_model; m_outlet the_model] /\
    chain f /\
    FlowSheet.connections f
    = [(m_inlet the_model, m_column the_model);
       (m_column the_model, m_outlet the_model)] /\
    FlowSheet.product_outlets f = [m_outlet the_model] /\
    Process.flow_sheet <$> processes h = [m_flow_sheet the_model] /\
    is_Some (inlet_at h (m_inlet the_model)) /\
    is_Some (column_at h (m_column the_model)) /\
    (exists o, h !! m_outlet the_model = Some (OOutlet o)) /\
    Forall
      (fun o => forall cs, component_system_of o = Some cs ->
                           cs = m_component_system the_model)
      h.
Proof.
  split; [exact Binary64_sane |].
  exact (flow_sheet_is_chain interstitial_area echo_engine Binary64_sane
           "__main__").
Defined.

(** ** Binary64 over a range of Peclet numbers *)

Lemma count_from_In n : forall z0 z,
  z0 <= z < z0 + Z.of_nat n -> In z (count_from z0 n).
Proof.
  induction n as [| n IH]; intros z0 z Hz.
  - lia.
  - cbn [count_from]. destruct (Z.eq_dec z0 z) as [E | Hne].
    + left. exact E.
    + right. apply IH. lia.
Qed.

Lemma binary64_inversion_table :
  forallb binary64_inversion_ok checked_peclets = true.
Proof. vm_compute. reflexivity. Qed.

Lemma binary64_inversion_checked z :
  1 <= z <= 10000 -> binary64_inversion_ok z = true.
Proof.
  intros Hz.
  apply (proj1 (forallb_forall _ _) binary64_inversion_table).
  apply count_from_In. lia.
Qed.

Lemma close_spec tol x target :
  close tol x target = true ->
  exists v, x = Some v /\ (Qabs (v - target) <= tol * Qabs target)%Q.
Proof.
  unfold close. destruct x as [v |]; [| discriminate].
  intros E. exists v. split; [reflexivity | apply Qle_bool_iff, E].
Qed.

Lemma below_spec x y :
  below x y = true ->
  exists u v, x = Some u /\ y = Some v /\ (0 < v)%Q /\ (v < u)%Q.
Proof.
  unfold below. destruct x as [u |]; [| discriminate].
  destruct y as [v |]; [| discriminate].
  intros E. apply andb_true_iff in E. destruct E as [E1 E2].
  exists u, v. repeat split.
  - apply Qnot_le_lt. intros L. apply Qle_bool_iff in L.
    rewrite L in E1. discriminate.
  - apply Qnot_le_lt. intros L. apply Qle_bool_iff in L.
    rewrite L in E2. discriminate.
Qed.

(** What the table says of one Peclet number of the range. *)
Lemma binary64_inversion_facts z :
  1 <= z <= 10000 ->
  let d := dispersion_for (F := float) (of_int z) in
  let pe' := fdiv (fmul (lit 17 (-3)) velocity) d in
  fis_zero (F := float) (of_int z) = false /\
  fis_zero d = false /\
  (exists qd, float_value d = Some qd /\
     (Qabs (qd - (17 # 1000) * ((3 # 10) * ((1 # 100) / 60)) / inject_Z z)
      <= (1 # 2 ^ 50)
         * Qabs ((17 # 1000) * ((3 # 10) * ((1 # 100) / 60)) / inject_Z z))%Q) /\
  (exists qpe, float_value pe' = Some qpe /\
     (Qabs (qpe - inject_Z z) <= (1 # 2 ^ 52) * Qabs (inject_Z z))%Q) /\
  (exists q1 q2, float_value d = Some q1 /\
     float_value (dispersion_for (F := float) (of_int (z + 1))) = Some q2 /\
     (0 < q2)%Q /\ (q2 < q1)%Q).
Proof.
  intros Hz d pe'. pose proof (binary64_inversion_checked z Hz) as T.
  unfold binary64_inversion_ok in T. fold d pe' in T.
  repeat (apply andb_true_iff in T; destruct T as [T ?]).
  repeat split.
  - apply negb_true_iff. assumption.
  - apply negb_true_iff. assumption.
  - apply close_spec. assumption.
  - apply close_spec. assumption.
  - apply below_spec. assumption.
Qed.






(** ** Runs as [__main__] by what the engine does on the seven calls *)

Section Completion.

Context {F : Type} `{PyFloat F} {R : Type}.
Variable cross_section_area_interstitial : GeneralRateModel.t F -> F.
Variable simulate : list (obj F) -> loc -> option R.

Local Abbreviation csai := cross_section_area_interstitial.
Local Abbreviation cheap := (configured_heap cross_section_area_interstitial).

Hypothesis sane : sane_arith.

(** The run when the engine succeeds on the seven heaps it is called
    on. *)
Lemma run_main_on_seven (sim : F -> R) :
  Forall (fun d => simulate (cheap [d]) the_process = Some (sim d))
    assigned_dispersions ->
  run csai simulate "__main__"
  = (Ok (mkGlobals the_model the_process (fmul (lit 200 (-1)) (of_int 60))
           [lit 10 (-1)] [lit 0 (-1)]
           (PyInt 255)
           (Some (sim (dispersion_for (of_int 255))))),
     mkWorld (cheap [dispersion_for (of_int 255)]) (main_effects csai sim)).
Proof.
  intros Hall. unfold assigned_dispersions in Hall.
  apply Forall_cons in Hall. destruct Hall as [H0 H6].
  apply Forall_fmap in H6.
  assert (Hs : sweepable csai simulate sim peclet_numbers).
  { unfold sweepable. apply Forall_and. split.
    - exact (peclets_nonzero sane).
    - exact H6. }
  rewrite (run_driver csai simulate sane). unfold driver.
  rewrite (bind_ok _ _ _ _ _ (first_run_main simulate _ _ _ H0)).
  rewrite (bind_ok _ _ _ _ _
             (peclet_cell_ok csai sane _ _ (dispersion_nonzero sane))).
  assert (Hb : forall d0 e,
             sweep_block simulate "__main__" (m_column the_model) the_process
               (mkWorld (cheap [d0]) e)
             = (Ok (final_binding sim None peclet_numbers),
                mkWorld (cheap [final_dispersion d0 peclet_numbers])
                  (e ++ sweep_block_effects csai sim))).
  { intros d0 e. unfold sweep_block, sweep, enumerate.
    rewrite String.eqb_refl.
    rewrite (bind_ok _ _ _ _ _ (plt_subplots_ok _ _ _ _ _)).
    erewrite bind_ok
      by (apply (sweep_prefix csai simulate sim sane);
          [exact Hs | simpl; lia]).
    unfold sweep_block_effects, mbind, M_bind, emit.
    cbn [heap effects mret M_ret]. rewrite <- !app_assoc. reflexivity. }
  rewrite (bind_ok _ _ _ _ _ (Hb _ _)). reflexivity.
Qed.

(** A loop that completes leaves the column with the dispersion of its
    last Peclet number. *)
Lemma sweep_completed axes pes : forall i d0 e last res w',
  Forall (fun pe => fis_zero (of_int pe) = false) pes ->
  for_each (enumerate_from i pes)
    (sweep_body simulate (m_column the_model) the_process axes) last
    (mkWorld (cheap [d0]) e)
  = (Ok res, w') ->
  heap w' = cheap [final_dispersion d0 pes].
Proof.
  induction pes as [| pe pes IH]; intros i d0 e last res w' Hz E.
  - cbn in E. inversion E; subst. reflexivity.
  - inversion Hz as [| ? ? Hpe Hpes]; subst.
    cbn [enumerate_from for_each] in E. unfold mbind at 1, M_bind at 1 in E.
    rewrite (sweep_body_run csai simulate sane _ _ _ _ _ Hpe) in E.
    cbn zeta in E. unfold panel in *.
    destruct (simulate (cheap [dispersion_for (of_int pe)]) the_process);
      [| discriminate].
    destruct (axes !! i); [| discriminate].
    exact (IH _ _ _ _ _ _ Hpes E).
Qed.

(** A run as [__main__] that completes leaves the column with the
    dispersion of the last Peclet number. *)
Lemma run_main_completed g w :
  run csai simulate "__main__" = (Ok g, w) ->
  g_model g = the_model /\ heap w = cheap [dispersion_for (of_int 255)].
Proof.
  intros Hrun.
  split; [exact (proj1 (run_globals csai simulate sane _ _ _ Hrun)) |].
  destruct (simulate (cheap [lit 333 (-11)]) the_process) as [r0 |] eqn:E0.
  2: { rewrite (first_failure_aborts csai simulate sane E0) in Hrun.
       discriminate. }
  rewrite (run_driver csai simulate sane) in Hrun. unfold driver in Hrun.
  rewrite (bind_ok _ _ _ _ _ (first_run_main simulate _ _ _ E0)) in Hrun.
  rewrite (bind_ok _ _ _ _ _
             (peclet_cell_ok csai sane _ _ (dispersion_nonzero sane)))
    in Hrun.
  unfold mbind at 1, M_bind at 1 in Hrun.
  match type of Hrun with
  | context [sweep_block ?s ?n ?c ?p ?w0] =>
      destruct (sweep_block s n c p w0) as [[last | ex] w2] eqn:Es
  end; [| discriminate].
  cbn in Hrun. inversion Hrun; subst. clear Hrun.
  unfold sweep_block, sweep, enumerate in Es.
  rewrite String.eqb_refl in Es.
  rewrite (bind_ok _ _ _ _ _ (plt_subplots_ok _ _ _ _ _)) in Es.
  unfold mbind at 1, M_bind at 1 in Es.
  match type of Es with
  | context [for_each ?l ?b ?o ?w0] =>
      destruct (for_each l b o w0) as [[res | ex] w3] eqn:Ef
  end; [| discriminate].
  apply (sweep_completed _ _ _ _ _ _ _ _ (peclets_nonzero sane)) in Ef.
  cbn in Es. inversion Es; subst. cbn [heap]. exact Ef.
Qed.

End Completion.

(** C3: run as [__main__] with an engine that succeeds on the seven heaps
    it is called on (the configured one and one per Peclet number), the
    script shows, after the first simulation and plot, one 3 x 2 grid and
    then, for the Peclet numbers 1, 5, 25, 50, 100, 255 in this order, a
    simulation of the process on the heap whose column has the recomputed
    dispersion, the plot of its result on panel [i] of the grid in
    row-major order and the title of that panel.  The heaps the engine sees
    differ from the configured one only in the axial dispersion of the
    column object, which the engine reaches through the process and its
    flow sheet. *)
Theorem sweep_order {F} `{PyFloat F} (R : Type)
    (csai : GeneralRateModel.t F -> F)
    (simulate : list (obj F) -> loc -> option R) (sim : F -> R) :
  sane_arith ->
  Forall (fun d => simulate (configured_heap csai [d]) the_process = Some (sim d))
    (lit 333 (-11)
     :: ((fun pe => dispersion_for (of_int pe)) <$> [1; 5; 25; 50; 100; 255])) ->
  effects (snd (run csai simulate "__main__"))
  = ([EPrint "__main__";
      ESimulate (configured_heap csai [lit 333 (-11)]) the_process;
      EPlot (sim (lit 333 (-11))) None;
      ESubplots 3 2 (10, 12)]
    ++ sweep_step csai sim (0, 0)%nat 1 "Peclet number: 1"
    ++ sweep_step csai sim (0, 1)%nat 5 "Peclet number: 5"
    ++ sweep_step csai sim (1, 0)%nat 25 "Peclet number: 25"
    ++ sweep_step csai sim (1, 1)%nat 50 "Peclet number: 50"
    ++ sweep_step csai sim (2, 0)%nat 100 "Peclet number: 100"
    ++ sweep_step csai sim (2, 1)%nat 255 "Peclet number: 255"
    ++ [ETightLayout])%list /\
  (forall d d0,
     configured_heap csai [d]
     = <[m_column the_model :=
           OGeneralRateModel
             (GeneralRateModel.set_axial_dispersion [d]
                (configured_column [d0]))]> (configured_heap csai [d0])) /\
  (forall d, seen_dispersion (configured_heap csai [d]) the_process = Some [d]).
Proof.
  intros sane Hsim. split; [| split; reflexivity].
  rewrite (run_main_on_seven csai simulate sane sim Hsim). reflexivity.
Qed.

Lemma sweep_order_witness :
  sane_arith (F := float) /\
  Forall
    (fun d : float =>
       fussy_engine (lit 1 (-9)) (configured_heap interstitial_area [d])
         the_process = Some [d])
    (lit 333 (-11)
     :: ((fun pe => dispersion_for (of_int pe)) <$> [1; 5; 25; 50; 100; 255])) /\
  fussy_engine (lit 1 (-9)) (configured_heap interstitial_area [lit 0 0])
    the_process = None /\
  effects
    (snd (run (F := float) interstitial_area (fussy_engine (lit 1 (-9)))
            "__main__"))
  = ([EPrint "__main__";
      ESimulate (configured_heap interstitial_area [lit 333 (-11)]) the_process;
      EPlot [lit 333 (-11)] None;
      ESubplots 3 2 (10, 12)]
    ++ sweep_step interstitial_area (fun d => [d]) (0, 0)%nat 1 "Peclet number: 1"
    ++ sweep_step interstitial_area (fun d => [d]) (0, 1)%nat 5 "Peclet number: 5"
    ++ sweep_step interstitial_area (fun d => [d]) (1, 0)%nat 25 "Peclet number: 25"
    ++ sweep_step interstitial_area (fun d => [d]) (1, 1)%nat 50 "Peclet number: 50"
    ++ sweep_step interstitial_area (fun d => [d]) (2, 0)%nat 100 "Peclet number: 100"
    ++ sweep_step interstitial_area (fun d => [d]) (2, 1)%nat 255 "Peclet number: 255"
    ++ [ETightLayout])%list.
Proof.
  assert (Hs : Forall
                 (fun d : float =>
                    fussy_engine (lit 1 (-9))
                      (configured_heap interstitial_area [d]) the_process
                    = Some [d])
                 (lit 333 (-11)
                  :: ((fun pe => dispersion_for (of_int pe))
                        <$> [1; 5; 25; 50; 100; 255])))
    by (repeat constructor).
  split; [exact Binary64_sane |]. split; [exact Hs |].
  split; [reflexivity |].
  exact (proj1 (sweep_order (list float) interstitial_area
                  (fussy_engine (lit 1 (-9))) (fun d => [d])
                  Binary64_sane Hs)).
Defined.

(** C9: a run as [__main__] completes when the engine succeeds on the seven
    heaps it is called on; and whenever such a run completes, the column
    holds the dispersion computed for the last Peclet number,
    (0.017 x 0.3 x (1e-2 / 60)) / 255, which is not the 3.33e-9 it was
    configured with: nothing assigns the dispersion after the last
    iteration.  In binary64 and in exact arithmetic. *)
Theorem dispersion_after_sweep :
  (forall R csai simulate,
     (Forall
        (fun d : float =>
           is_Some (simulate (configured_heap csai [d]) the_process))
        (lit 333 (-11)
         :: ((fun pe => dispersion_for (of_int pe)) <$> [1; 5; 25; 50; 100; 255])) ->
      exists g w, run (F := float) (R := R) csai simulate "__main__" = (Ok g, w)) /\
     forall g w,
       run (F := float) (R := R) csai simulate "__main__" = (Ok g, w) ->
       exists u d,
         column_at (heap w) (m_column (g_model g)) = Some u /\
         GeneralRateModel.axial_dispersion u = Some [d] /\
         d = PrimFloat.div
               (PrimFloat.mul 0.017 (PrimFloat.mul 0.3 (PrimFloat.div 1e-2 60)))
               255 /\
         d = PrimFloat.div
               (PrimFloat.mul (PrimFloat.mul 0.017 0.3) (PrimFloat.div 1e-2 60))
               255 /\
         d = 3.3333333333333334e-09%float /\
         PrimFloat.eqb d 3.33e-9 = false) /\
  (forall R csai simulate,
     (Forall
        (fun d : Q =>
           is_Some (simulate (configured_heap csai [d]) the_process))
        (lit 333 (-11)
         :: ((fun pe => dispersion_for (of_int pe)) <$> [1; 5; 25; 50; 100; 255])) ->
      exists g w, run (F := Q) (R := R) csai simulate "__main__" = (Ok g, w)) /\
     forall g w,
       run (F := Q) (R := R) csai simulate "__main__" = (Ok g, w) ->
       exists u d,
         column_at (heap w) (m_column (g_model g)) = Some u /\
         GeneralRateModel.axial_dispersion u = Some [d] /\
         (d == (17 # 1000) * ((3 # 10) * ((1 # 100) / 60)) / 255)%Q /\
         (d == (17 # 1000) * (3 # 10) * ((1 # 100) / 60) / 255)%Q /\
         d = 1 # 300000000 /\
         ~ (d == 333 # 100000000000)%Q).
Proof.
  split; intros R csai simulate; split.
  - intros Hall.
    pose proof Hall as Hall0. apply Forall_cons in Hall0.
    destruct Hall0 as [[r0 _] _].
    pose (sim := fun d : float =>
                   default r0 (simulate (configured_heap csai [d]) the_process)).
    eexists _, _.
    apply (run_main_on_seven csai simulate Binary64_sane sim).
    eapply Forall_impl; [exact Hall |].
    intros d [r Hr]. unfold sim. rewrite Hr. reflexivity.
  - intros g w Hrun.
    destruct (run_main_completed csai simulate Binary64_sane g w Hrun)
      as [Hm Hh].
    rewrite Hm, Hh.
    exists (configured_column [dispersion_for (of_int 255)]),
      (dispersion_for (of_int 255)).
    repeat split.
  - intros Hall.
    pose proof Hall as Hall0. apply Forall_cons in Hall0.
    destruct Hall0 as [[r0 _] _].
    pose (sim := fun d : Q =>
                   default r0 (simulate (configured_heap csai [d]) the_process)).
    eexists _, _.
    apply (run_main_on_seven csai simulate Exact_sane sim).
    eapply Forall_impl; [exact Hall |].
    intros d [r Hr]. unfold sim. rewrite Hr. reflexivity.
  - intros g w Hrun.
    destruct (run_main_completed csai simulate Exact_sane g w Hrun)
      as [Hm Hh].
    rewrite Hm, Hh.
    exists (configured_column [dispersion_for (of_int 255)]),
      (dispersion_for (of_int 255)).
    repeat split. discriminate.
Qed.

Lemma dispersion_after_sweep_witness :
  exists g w,
    run (F := float) interstitial_area (fussy_engine (lit 1 (-9))) "__main__"
    = (Ok g, w) /\
    exists u d,
      column_at (heap w) (m_column (g_model g)) = Some u /\
      GeneralRateModel.axial_dispersion u = Some [d] /\
      d = PrimFloat.div
            (PrimFloat.mul 0.017 (PrimFloat.mul 0.3 (PrimFloat.div 1e-2 60)))
            255 /\
      d = PrimFloat.div
            (PrimFloat.mul (PrimFloat.mul 0.017 0.3) (PrimFloat.div 1e-2 60))
            255 /\
      d = 3.3333333333333334e-09%float /\
      PrimFloat.eqb d 3.33e-9 = false.
Proof.
  eexists _, _. split; [vm_compute; reflexivity |].
  eapply (proj2 (proj1 dispersion_after_sweep (list float) interstitial_area
                   (fussy_engine (lit 1 (-9))))).
  vm_compute; reflexivity.
Defined.

(** ** The sweep over other lists of Peclet numbers *)

Section SweepsInRange.

Context {F : Type} `{PyFloat F} {R : Type}.
Variable cross_section_area_interstitial : GeneralRateModel.t F -> F.
Variable simulate : list (obj F) -> loc -> option R.
Variable sim : F -> R.

Local Abbreviation csai := cross_section_area_interstitial.
Local Abbreviation cheap := (configured_heap cross_section_area_interstitial).
Local Abbreviation body :=
  (sweep_body simulate (m_column the_model) the_process).

Hypothesis sane : sane_arith.

Lemma sweep_prefix_then axes pes1 rest d0 (e : list (effect F R)) :
  sweepable csai simulate sim pes1 ->
  (List.length pes1 <= List.length axes)%nat ->
  sweep simulate (m_column the_model) the_process axes (pes1 ++ rest)
    (mkWorld (cheap [d0]) e)
  = for_each (enumerate_from (List.length pes1) rest) (body axes)
      (final_binding sim None pes1)
      (mkWorld (cheap [last_dispersion d0 pes1])
         (e ++ sweep_effects csai sim axes (enumerate pes1))).
Proof.
  intros Hs Hlen. unfold sweep, enumerate.
  rewrite enumerate_from_app.
  erewrite for_each_app
    by (apply (sweep_prefix csai simulate sim sane axes pes1 0);
        [exact Hs | simpl; lia]).
  rewrite final_dispersion_last. reflexivity.
Qed.

(** X1: the loop of lines 142-146 over any list of Peclet numbers between 1
    and 2^53 - 1 (where the conversion to binary64 is exact) that has no
    more entries than there are panels, with an engine that succeeds on
    each: the loop completes, the column is left with the dispersion of the
    last Peclet number (or untouched when the list is empty), the loop
    variables are those of the last iteration, and the log gains one
    simulation, one plot and one title per Peclet number, in the order of
    the list. *)
Theorem sweep_any_list axes pes d0 (e : list (effect F R)) :
  Forall (fun pe => 0 < pe < 2 ^ 53) pes ->
  sweepable csai simulate sim pes ->
  (List.length pes <= List.length axes)%nat ->
  sweep simulate (m_column the_model) the_process axes pes
    (mkWorld (cheap [d0]) e)
  = (Ok (last_binding sim pes),
     mkWorld (cheap [last_dispersion d0 pes])
       (e ++ sweep_effects csai sim axes (enumerate pes))).
Proof.
  intros _ Hs Hlen.
  rewrite <- (app_nil_r pes) at 1.
  rewrite (sweep_prefix_then axes pes [] d0 e Hs Hlen).
  cbn [enumerate_from for_each]. rewrite final_binding_last. reflexivity.
Qed.


(** X3: with more Peclet numbers than panels, the sweep stops with an
    IndexError at line 145 in the first iteration without a panel, after
    line 143 has assigned the column and line 144 has run the engine for
    that Peclet number: the column is left with its dispersion and the
    result is not plotted.  The entries visited are between 1 and
    2^53 - 1. *)
Theorem sweep_out_of_panels axes pes1 pe pes2 d0 (e : list (effect F R)) :
  Forall (fun pe => 0 < pe < 2 ^ 53) (pes1 ++ [pe]) ->
  sweepable csai simulate sim (pes1 ++ [pe]) ->
  List.length pes1 = List.length axes ->
  sweep simulate (m_column the_model) the_process axes (pes1 ++ pe :: pes2)
    (mkWorld (cheap [d0]) e)
  = (Raise IndexError,
     mkWorld (cheap [dispersion_for (of_int pe)])
       ((e ++ sweep_effects csai sim axes (enumerate pes1))
        ++ [ESimulate (cheap [dispersion_for (of_int pe)]) the_process])).
Proof.
  intros _ Hs Hlen. apply Forall_app in Hs. destruct Hs as [Hs1 Hpe].
  inversion Hpe as [| ? ? [Hz Hsim] _]; subst.
  rewrite (sweep_prefix_then axes pes1 (pe :: pes2) d0 e Hs1) by lia.
  cbn [enumerate_from]. apply for_each_raise.
  rewrite (sweep_body_run csai simulate sane _ _ _ _ _ Hz). cbn zeta.
  rewrite Hsim. unfold panel in *. rewrite Hlen.
  rewrite (lookup_ge_None_2 axes (List.length axes)) by lia. reflexivity.
Qed.

(** X4: when the engine fails for a Peclet number, the sweep stops with
    the failure of the engine (nothing catches it): the column is left with
    the dispersion assigned for that Peclet number, the failed run is the
    last entry of the log, and the later Peclet numbers are not visited.
    The entries visited are between 1 and 2^53 - 1. *)
Theorem sweep_engine_failure axes pes1 pe pes2 d0 (e : list (effect F R)) :
  Forall (fun pe => 0 < pe < 2 ^ 53) (pes1 ++ [pe]) ->
  sweepable csai simulate sim pes1 ->
  (List.length pes1 <= List.length axes)%nat ->
  fis_zero (of_int pe) = false ->
  simulate (cheap [dispersion_for (of_int pe)]) the_process = None ->
  sweep simulate (m_column the_model) the_process axes (pes1 ++ pe :: pes2)
    (mkWorld (cheap [d0]) e)
  = (Raise SimulationError,
     mkWorld (cheap [dispersion_for (of_int pe)])
       ((e ++ sweep_effects csai sim axes (enumerate pes1))
        ++ [ESimulate (cheap [dispersion_for (of_int pe)]) the_process])).
Proof.
  intros _ Hs Hlen Hz Hfail.
  rewrite (sweep_prefix_then axes pes1 (pe :: pes2) d0 e Hs Hlen).
  cbn [enumerate_from]. apply for_each_raise.
  rewrite (sweep_body_run csai simulate sane _ _ _ _ _ Hz). cbn zeta.
  rewrite Hfail. reflexivity.
Qed.


End SweepsInRange.

(** ** Larger Peclet number, smaller dispersion *)

Lemma binary64_dispersion_chain (k : nat) : forall z1,
  1 <= z1 -> z1 + 1 + Z.of_nat k <= 10001 ->
  exists q1 q2,
    float_value (dispersion_for (F := float) (of_int z1)) = Some q1 /\
    float_value (dispersion_for (F := float) (of_int (z1 + 1 + Z.of_nat k)))
    = Some q2 /\
    (0 < q2)%Q /\ (q2 < q1)%Q.
Proof.
  induction k as [| k IH]; intros z1 H1 H2.
  - destruct (binary64_inversion_facts z1 ltac:(lia))
      as (_ & _ & _ & _ & q1 & q2 & E1 & E2 & P & L).
    exists q1, q2. replace (z1 + 1 + Z.of_nat 0) with (z1 + 1) by lia.
    repeat split; assumption.
  - destruct (IH z1 H1 ltac:(lia)) as (q1 & q2 & E1 & E2 & P & L).
    destruct (binary64_inversion_facts (z1 + 1 + Z.of_nat k) ltac:(lia))
      as (_ & _ & _ & _ & q2' & q3 & E2' & E3 & P3 & L3).
    rewrite E2 in E2'. inversion E2'; subst q2'.
    exists q1, q3.
    replace (z1 + 1 + Z.of_nat (S k)) with (z1 + 1 + Z.of_nat k + 1) by lia.
    repeat split; try assumption.
    eapply Qlt_trans; eassumption.
Qed.

(** X9: of two integer Peclet numbers between 1 and 10000, the larger one
    makes line 143 give the column the smaller dispersion in binary64, as
    real numbers, and both dispersions are positive; in exact arithmetic
    the same holds of any two positive Peclet numbers. *)
Theorem dispersion_antitone :
  (forall R csai (z1 z2 : Z) (d0 : float) (e : list (effect float R)),
     1 <= z1 -> z1 < z2 -> z2 <= 10000 ->
     exists (d1 d2 : float) (q1 q2 : Q),
       assign_dispersion (m_column the_model) (PyInt z1)
         (mkWorld (configured_heap csai [d0]) e)
       = (Ok tt, mkWorld (configured_heap csai [d1]) e) /\
       assign_dispersion (m_column the_model) (PyInt z2)
         (mkWorld (configured_heap csai [d0]) e)
       = (Ok tt, mkWorld (configured_heap csai [d2]) e) /\
       float_value d1 = Some q1 /\ float_value d2 = Some q2 /\
       (0 < q2)%Q /\ (q2 < q1)%Q) /\
  (forall R csai (x1 x2 d0 : Q) (e : list (effect Q R)),
     (0 < x1)%Q -> (x1 < x2)%Q ->
     exists d1 d2 : Q,
       assign_dispersion (m_column the_model) (PyFloatVal x1)
         (mkWorld (configured_heap csai [d0]) e)
       = (Ok tt, mkWorld (configured_heap csai [d1]) e) /\
       assign_dispersion (m_column the_model) (PyFloatVal x2)
         (mkWorld (configured_heap csai [d0]) e)
       = (Ok tt, mkWorld (configured_heap csai [d2]) e) /\
       (0 < d2)%Q /\ (d2 < d1)%Q).
Proof.
  split.
  - intros R csai z1 z2 d0 e H1 H12 H2.
    destruct (binary64_dispersion_chain (Z.to_nat (z2 - z1 - 1)) z1 H1
                ltac:(lia)) as (q1 & q2 & E1 & E2 & P & L).
    replace (z1 + 1 + Z.of_nat (Z.to_nat (z2 - z1 - 1))) with z2 in E2 by lia.
    destruct (binary64_inversion_facts z1 ltac:(lia)) as (Z1 & _).
    destruct (binary64_inversion_facts z2 ltac:(lia)) as (Z2 & _).
    exists (dispersion_for (of_int z1)), (dispersion_for (of_int z2)), q1, q2.
    split.
    { rewrite (assign_dispersion_step csai Binary64_sane).
      cbn [to_float]. rewrite Z1. reflexivity. }
    split.
    { rewrite (assign_dispersion_step csai Binary64_sane).
      cbn [to_float]. rewrite Z2. reflexivity. }
    repeat split; assumption.
  - intros R csai x1 x2 d0 e H1 H12.
    assert (H2 : (0 < x2)%Q) by (eapply Qlt_trans; eassumption).
    assert (N1 : ~ (x1 == 0)%Q).
    { intros E. rewrite E in H1. exact (Qlt_irrefl 0 H1). }
    assert (N2 : ~ (x2 == 0)%Q).
    { intros E. rewrite E in H2. exact (Qlt_irrefl 0 H2). }
    exists (dispersion_for x1), (dispersion_for x2).
    split.
    { rewrite (assign_dispersion_step csai Exact_sane). cbn [to_float].
      rewrite (exact_is_zero_false _ N1). reflexivity. }
    split.
    { rewrite (assign_dispersion_step csai Exact_sane). cbn [to_float].
      rewrite (exact_is_zero_false _ N2). reflexivity. }
    rewrite !exact_dispersion_for. unfold Qdiv. split.
    + apply Qmult_lt_0_compat; [reflexivity | apply Qinv_lt_0_compat, H2].
    + apply Qmult_lt_l; [reflexivity |].
      apply -> Qinv_lt_contravar; assumption.
Qed.

(** ** The sweep and the inversion on concrete inputs *)

Lemma sweep_any_list_witness :
  sane_arith (F := float) /\
  Forall (fun pe => 0 < pe < 2 ^ 53) [2; 10] /\
  sweepable interstitial_area echo_engine (fun d : float => [d]) [2; 10] /\
  (List.length [2; 10] <= List.length (flatten (grid 3 2)))%nat /\
  sweep echo_engine (m_column the_model) the_process (flatten (grid 3 2))
    [2; 10] (mkWorld (configured_heap interstitial_area [lit 333 (-11)]) [])
  = (Ok (last_binding (fun d : float => [d]) [2; 10]),
     mkWorld
       (configured_heap interstitial_area
          [last_dispersion (lit 333 (-11)) [2; 10]])
       ([] ++ sweep_effects interstitial_area (fun d : float => [d])
                (flatten (grid 3 2)) (enumerate [2; 10]))).
Proof.
  assert (Hb : Forall (fun pe => 0 < pe < 2 ^ 53) [2; 10])
    by (repeat constructor).
  assert (Hs : sweepable interstitial_area echo_engine
                 (fun d : float => [d]) [2; 10]) by (repeat constructor).
  assert (Hl : (List.length [2; 10] <= List.length (flatten (grid 3 2)))%nat)
    by (simpl; lia).
  split; [exact Binary64_sane |]. split; [exact Hb |].
  split; [exact Hs |]. split; [exact Hl |].
  exact (sweep_any_list interstitial_area echo_engine (fun d : float => [d])
           Binary64_sane (flatten (grid 3 2)) [2; 10] (lit 333 (-11)) []
           Hb Hs Hl).
Defined.


Lemma sweep_out_of_panels_witness :
  sane_arith (F := float) /\
  Forall (fun pe => 0 < pe < 2 ^ 53) (peclet_numbers ++ [500]) /\
  sweepable interstitial_area echo_engine (fun d : float => [d])
    (peclet_numbers ++ [500]) /\
  List.length peclet_numbers = List.length (flatten (grid 3 2)) /\
  sweep echo_engine (m_column the_model) the_process (flatten (grid 3 2))
    (peclet_numbers ++ 500 :: [])
    (mkWorld (configured_heap interstitial_area [lit 333 (-11)]) [])
  = (Raise IndexError,
     mkWorld (configured_heap interstitial_area [dispersion_for (of_int 500)])
       (([] ++ sweep_effects interstitial_area (fun d : float => [d])
                 (flatten (grid 3 2)) (enumerate peclet_numbers))
        ++ [ESimulate
              (configured_heap interstitial_area [dispersion_for (of_int 500)])
              the_process])).
Proof.
  assert (Hb : Forall (fun pe => 0 < pe < 2 ^ 53) (peclet_numbers ++ [500]))
    by (repeat constructor).
  assert (Hs : sweepable interstitial_area echo_engine
                 (fun d : float => [d]) (peclet_numbers ++ [500]))
    by (repeat constructor).
  assert (Hl : List.length peclet_numbers = List.length (flatten (grid 3 2)))
    by reflexivity.
  split; [exact Binary64_sane |]. split; [exact Hb |].
  split; [exact Hs |]. split; [exact Hl |].
  exact (sweep_out_of_panels interstitial_area echo_engine
           (fun d : float => [d]) Binary64_sane (flatten (grid 3 2))
           peclet_numbers 500 [] (lit 333 (-11)) [] Hb Hs Hl).
Defined.

Lemma sweep_engine_failure_witness :
  sane_arith (F := float) /\
  Forall (fun pe => 0 < pe < 2 ^ 53) ([1; 5] ++ [25]) /\
  sweepable interstitial_area (fussy_engine (lit 1 (-7)))
    (fun d : float => [d]) [1; 5] /\
  (List.length [1; 5] <= List.length (flatten (grid 3 2)))%nat /\
  fis_zero (F := float) (of_int 25) = false /\
  fussy_engine (lit 1 (-7))
    (configured_heap interstitial_area [dispersion_for (of_int 25)])
    the_process = None /\
  sweep (fussy_engine (lit 1 (-7))) (m_column the_model) the_process
    (flatten (grid 3 2)) ([1; 5] ++ 25 :: [50; 100; 255])
    (mkWorld (configured_heap interstitial_area [lit 333 (-11)]) [])
  = (Raise SimulationError,
     mkWorld (configured_heap interstitial_area [dispersion_for (of_int 25)])
       (([] ++ sweep_effects interstitial_area (fun d : float => [d])
                 (flatten (grid 3 2)) (enumerate [1; 5]))
        ++ [ESimulate
              (configured_heap interstitial_area [dispersion_for (of_int 25)])
              the_process])).
Proof.
  assert (Hb : Forall (fun pe => 0 < pe < 2 ^ 53) ([1; 5] ++ [25]))
    by (repeat constructor).
  assert (Hs : sweepable interstitial_area (fussy_engine (lit 1 (-7)))
                 (fun d : float => [d]) [1; 5]) by (repeat constructor).
  assert (Hl : (List.length [1; 5] <= List.length (flatten (grid 3 2)))%nat)
    by (simpl; lia).
  assert (Hz : fis_zero (F := float) (of_int 25) = false) by reflexivity.
  assert (Hf : fussy_engine (lit 1 (-7))
                 (configured_heap interstitial_area
                    [dispersion_for (of_int 25)])
                 the_process = None) by reflexivity.
  split; [exact Binary64_sane |]. split; [exact Hb |].
  split; [exact Hs |]. split; [exact Hl |].
  split; [exact Hz |]. split; [exact Hf |].
  exact (sweep_engine_failure interstitial_area (fussy_engine (lit 1 (-7)))
           (fun d : float => [d]) Binary64_sane (flatten (grid 3 2))
           [1; 5] 25 [50; 100; 255] (lit 333 (-11)) [] Hb Hs Hl Hz Hf).
Defined.


Lemma dispersion_antitone_witness :
  1 <= 49 /\ 49 < 50 /\ 50 <= 10000 /\
  exists (d1 d2 : float) (q1 q2 : Q),
    assign_dispersion (R := list float) (m_column the_model) (PyInt 49)
      (mkWorld (configured_heap interstitial_area [lit 333 (-11)]) [])
    = (Ok tt, mkWorld (configured_heap interstitial_area [d1]) []) /\
    assign_dispersion (R := list float) (m_column the_model) (PyInt 50)
      (mkWorld (configured_heap interstitial_area [lit 333 (-11)]) [])
    = (Ok tt, mkWorld (configured_heap interstitial_area [d2]) []) /\
    float_value d1 = Some q1 /\ float_value d2 = Some q2 /\
    (0 < q2)%Q /\ (q2 < q1)%Q.
Proof.
  assert (H1 : 1 <= 49) by lia.
  assert (H2 : 49 < 50) by lia.
  assert (H3 : 50 <= 10000) by lia.
  split; [exact H1 |]. split; [exact H2 |]. split; [exact H3 |].
  exact (proj1 dispersion_antitone (list float) interstitial_area 49 50
           (lit 333 (-11)) [] H1 H2 H3).
Defined.
